(** * GuidelineMonkey: the PDF ingestion script [scripts/embed_guidelines.py]

    A shallow embedding of the one-shot ingestion pipeline (directory scan,
    per-file text extraction with fallback, aggregation, splitting,
    embedding and persistence) and the properties of it that the
    specification states.

    The script is a sequence of effects, so it is embedded in a small monad
    that threads the on-disk state, records the observable events in order
    and may stop with [SystemExit].  The third-party calls (the two PDF
    loaders, the text splitter, the embedding model) and the directories
    the libraries set up on their own are parameters of the development;
    module [LangChain] gives a model of the splitter the script
    instantiates. *)

From Stdlib Require Import Ascii.
From stdpp Require Import gmap strings list sorting pretty.


(** ** Text: Python [str] values

    A text is a [string]; one [ascii] stands for one code point (the
    Latin-1 range), so [String.length] is Python's [len]. *)

(** [str.isspace] on the Latin-1 range: tab, line feed, vertical tab, form
    feed, carriage return, the four separators 0x1c-0x1f, space, 0x85 and
    the no-break space 0xa0. *)
Definition isspace (c : ascii) : bool :=
  let n := nat_of_ascii c in
  (((9 <=? n) && (n <=? 13)) || ((28 <=? n) && (n <=? 32))
   || (n =? 133) || (n =? 160))%nat.

(** [str.lstrip()]. *)
Fixpoint lstrip (s : string) : string :=
  match s with
  | EmptyString => EmptyString
  | String c s' => if isspace c then lstrip s' else s
  end.

(** [str.rstrip()]. *)
Fixpoint rstrip (s : string) : string :=
  match s with
  | EmptyString => EmptyString
  | String c s' =>
      match rstrip s' with
      | EmptyString => if isspace c then EmptyString else String c EmptyString
      | r => String c r
      end
  end.

(** [str.strip()]. *)
Definition strip (s : string) : string := rstrip (lstrip s).

(** [sep.join(parts)]. *)
Fixpoint join (sep : string) (parts : list string) : string :=
  match parts with
  | [] => ""
  | [p] => p
  | p :: ps => p +:+ sep +:+ join sep ps
  end.

(** [s.endswith(suffix)]. *)
Definition endswith (s suffix : string) : bool :=
  let n := String.length s in
  let k := String.length suffix in
  (k <=? n)%nat && bool_decide (String.substring (n - k) k s = suffix).

(** ** Paths: [pathlib.Path]

    An absolute POSIX path is the list of its components below the root. *)
Definition Path : Type := list string.

(** [p / name]. *)
Definition path_div (p : Path) (name : string) : Path := p ++ [name].
Infix "//" := path_div (at level 40, left associativity).

(** [str(p)]. *)
Definition path_str (p : Path) : string :=
  match p with
  | [] => "/"
  | _ => String.concat "" (map (String.append "/") p)
  end.

(** [p.name]. *)
Definition path_name (p : Path) : string := List.last p "".

(** The path itself and its ancestors, nearest first: what
    [mkdir(parents=True)] walks through. *)
Fixpoint path_self_and_parents (p : Path) : list Path :=
  match p with
  | [] => [[]]
  | c :: p' => map (cons c) (path_self_and_parents p') ++ [[]]
  end.

(** The order [sorted] uses on paths: Python compares the component lists
    lexicographically, components as strings. *)
Fixpoint path_le (p q : Path) : Prop :=
  match p, q with
  | [], _ => True
  | _ :: _, [] => False
  | a :: p', b :: q' => if decide (a = b) then path_le p' q' else String.le a b
  end.

#[global] Instance path_le_dec : RelDecision path_le.
Proof.
  intros p. induction p as [|a p IH]; intros [|b q]; simpl; try apply _.
  destruct (decide (a = b)); [apply IH | apply _].
Defined.

(** [sorted(paths)]: the list in ascending order.  The order is total and
    antisymmetric, so the result does not depend on the sorting algorithm. *)
Definition sorted (paths : list Path) : list Path := merge_sort path_le paths.

(** ** Documents and the loaders' results *)

(** The metadata a loader attaches to a page: the file it was read from and,
    for loaders that work page by page, the page index. *)
Record Metadata : Type := { source : string; page : option nat }.

(** A LangChain [Document]. *)
Record Document : Type := { page_content : string; metadata : Metadata }.

(** What [Loader(path).load()] does: it returns pages, or raises an
    [Exception] whose text is [e]. *)
Inductive LoadResult : Type :=
| Loaded (pages : list Document)
| Raised (e : string).

Inductive Extractor : Type := PyPDF | PDFMiner.

Definition extractor_name (x : Extractor) : string :=
  match x with PyPDF => "PyPDF" | PDFMiner => "PDFMiner" end.

(** ** Observable events, in program order *)
Inductive Event : Type :=
| EvMkdir (dir : Path)
| EvPrint (line : string)
| EvGlob (dir : Path) (pattern : string)
| EvLoad (x : Extractor) (file : string)
| EvSplit (chunk_size chunk_overlap : nat)
| EvEmbed (texts : list string)
| EvPersist (dir : Path).

(** ** Code that only logs: a writer monad *)
Definition Log (A : Type) : Type := list Event * A.

#[global] Instance Log_ret : MRet Log := λ A a, ([], a).
#[global] Instance Log_bind : MBind Log := λ A B f m,
  let '(t1, a) := m in let '(t2, b) := f a in (t1 ++ t2, b).

(** [print(line)]. *)
Definition print (line : string) : Log unit := ([EvPrint line], ()).

(** [sum(len(d.page_content) for d in pages)]. *)
Definition total_len (pages : list Document) : nat :=
  sum_list (map (λ d, String.length (page_content d)) pages).

(** [sum(len(d.page_content.strip()) for d in pages)]. *)
Definition total_stripped_len (pages : list Document) : nat :=
  sum_list (map (λ d, String.length (strip (page_content d))) pages).

(** One [try: pages = Loader(str(path)).load() / except Exception as e:
    print(warning)] block: on an exception [pages] keeps its value. *)
Definition try_load (x : Extractor) (load : string → LoadResult)
    (path : Path) (pages : list Document) : Log (list Document) :=
  match load (path_str path) with
  | Loaded ps => ([EvLoad x (path_str path)], ps)
  | Raised e =>
      ([EvLoad x (path_str path);
        EvPrint ("[warn] " +:+ extractor_name x +:+ " failed for "
                 +:+ path_name path +:+ ": " +:+ e)], pages)
  end.

Section Extraction.

(** [PyPDFLoader(file).load()] and [PDFMinerLoader(file).load()]. *)
Variable PyPDFLoader_load : string → LoadResult.
Variable PDFMinerLoader_load : string → LoadResult.

(** The value of [pages] after a [try] block that started with [pages]. *)
Definition loaded_or (r : LoadResult) (pages : list Document)
    : list Document :=
  match r with Loaded ps => ps | Raised _ => pages end.

(** [pages] at line 25, after the primary extractor. *)
Definition primary_pages (path : Path) : list Document :=
  loaded_or (PyPDFLoader_load (path_str path)) [].

(** [pages] at line 30: the final page list. *)
Definition final_pages (path : Path) : list Document :=
  if decide (total_stripped_len (primary_pages path) = 0)
  then loaded_or (PDFMinerLoader_load (path_str path)) (primary_pages path)
  else primary_pages path.

(** Lines 18-35. *)
Definition extract_pages (path : Path) : Log (list Document) :=
  pages ← try_load PyPDF PyPDFLoader_load path [];
  pages ← (if decide (total_stripped_len pages = 0)
           then try_load PDFMiner PDFMinerLoader_load path pages
           else mret pages);
  let total_chars := total_len pages in
  if decide (total_chars = 0) then
    print ("[skip] " +:+ path_name path
           +:+ ": no extractable text (likely scanned).");;
    mret []
  else
    print ("[ok] " +:+ path_name path +:+ ": " +:+ pretty (length pages)
           +:+ " pages, " +:+ pretty total_chars +:+ " chars.");;
    mret pages.

(** Lines 37-39: [for f in pdf_files: all_docs.extend(extract_pages(f))]. *)
Fixpoint extend_all (files : list Path) (all_docs : list Document)
    : Log (list Document) :=
  match files with
  | [] => mret all_docs
  | f :: files' =>
      pages ← extract_pages f;
      extend_all files' (all_docs ++ pages)
  end.

End Extraction.

(** ** The process: state, events, and [SystemExit] *)

(** How a run of the script ends: it runs to its last line, or a
    [raise SystemExit(msg)] stops it.  The library calls outside the two
    [try] blocks are taken to return. *)
Inductive Result (A : Type) : Type :=
| Return (a : A)
| SystemExit (msg : string).
Arguments Return {A} a.
Arguments SystemExit {A} msg.

(** The exit status of the interpreter: [SystemExit] with a string argument
    prints it on the error stream and exits with status 1. *)
Definition exit_status {A} (r : Result A) : nat :=
  match r with Return _ => 0 | SystemExit _ => 1 end.

Section Process.

(** The embedding vectors are opaque to the script. *)
Context {Vec : Type}.

(** A record of the vector store: the (chunk text, vector, source metadata)
    triple. *)
Record EmbeddingRecord : Type :=
  { rec_text : string; rec_vector : Vec; rec_metadata : Metadata }.

(** What the script changes on disk: the directories that exist and the
    content of the Chroma collection under [PERSIST_DIR]. *)
Record World : Type :=
  { dirs : gset Path; chroma : list EmbeddingRecord }.

Definition Proc (A : Type) : Type := World → list Event * World * Result A.

#[global] Instance Proc_ret : MRet Proc := λ A a w, ([], w, Return a).
#[global] Instance Proc_bind : MBind Proc := λ A B f m w,
  match m w with
  | (t1, w1, Return a) => let '(t2, w2, r) := f a w1 in (t1 ++ t2, w2, r)
  | (t1, w1, SystemExit msg) => (t1, w1, SystemExit msg)
  end.

#[global] Instance Proc_fmap : FMap Proc := λ A B f m,
  a ← m; mret (f a).

(** Run code that only logs. *)
Definition log {A} (m : Log A) : Proc A := λ w, (m.1, w, Return m.2).

(** [raise SystemExit(msg)]. *)
Definition raise_SystemExit {A} (msg : string) : Proc A :=
  λ w, ([], w, SystemExit msg).

(** [dir.mkdir(parents=True, exist_ok=True)]. *)
Definition mkdir_parents (dir : Path) : Proc unit := λ w,
  ([EvMkdir dir],
   {| dirs := dirs w ∪ list_to_set (path_self_and_parents dir);
      chroma := chroma w |},
   Return ()).

(** The names in a directory, in the order the operating system
    enumerates them. *)
Variable scandir : Path → list string.

(** The paths [dir.glob("*" + suffix)] yields: the entries of [dir] whose
    name ends with [suffix], in enumeration order. *)
Definition glob_paths (dir : Path) (suffix : string) : list Path :=
  map (path_div dir) (filter (λ n, endswith n suffix) (scandir dir)).

Definition glob_star (dir : Path) (suffix : string) : Proc (list Path) := λ w,
  ([EvGlob dir ("*" +:+ suffix)], w, Return (glob_paths dir suffix)).

Variable PyPDFLoader_load : string → LoadResult.
Variable PDFMinerLoader_load : string → LoadResult.

(** [RecursiveCharacterTextSplitter(chunk_size, chunk_overlap)
    .split_documents(docs)]. *)
Variable split_documents : nat → nat → list Document → list Document.

(** The embedding model applied to one text. *)
Variable embed : string → Vec.

Definition split (chunk_size chunk_overlap : nat) (docs : list Document)
    : Proc (list Document) := λ w,
  ([EvSplit chunk_size chunk_overlap], w,
   Return (split_documents chunk_size chunk_overlap docs)).

(** The record stored for a chunk. *)
Definition embedding_record (c : Document) : EmbeddingRecord :=
  {| rec_text := page_content c;
     rec_vector := embed (page_content c);
     rec_metadata := metadata c |}.

(** The directories the embedding model and the Chroma client create on
    their own when they run: the model cache, and the folders of the
    collection below [persist_directory].  The script does not choose
    them. *)
Variable library_dirs : gset Path.

(** Lines 49-50, [HuggingFaceEmbeddings(...)] and
    [Chroma.from_documents(chunks, embedding, persist_directory)]: the
    libraries set up their directories, and the result is the collection of
    that directory with the records of [chunks] added. *)
Definition Chroma_from_documents (chunks : list Document)
    : Proc (list EmbeddingRecord) := λ w,
  ([EvEmbed (map page_content chunks)],
   {| dirs := dirs w ∪ library_dirs; chroma := chroma w |},
   Return (chroma w ++ map embedding_record chunks)).

(** [db.persist()]: the collection is written into the directories the
    client has set up. *)
Definition Chroma_persist (dir : Path) (db : list EmbeddingRecord)
    : Proc unit := λ w,
  ([EvPersist dir], {| dirs := dirs w; chroma := db |}, Return ()).

(** Line 8: the repository root, [Path(__file__).resolve().parents[1]]. *)
Variable REPO_ROOT : Path.

Definition PDF_DIR : Path := REPO_ROOT // "documents" // "local_ocr".
Definition PERSIST_DIR : Path := REPO_ROOT // "vectorstore" // "chroma".

Definition chunk_size : nat := 1000.
Definition chunk_overlap : nat := 150.

(** The script, line by line. *)
Definition main : Proc unit :=
  mkdir_parents PERSIST_DIR;;
  log (print ("Looking for PDFs in: " +:+ path_str PDF_DIR));;
  pdf_files ← sorted <$> glob_star PDF_DIR ".pdf";
  match pdf_files with
  | [] => raise_SystemExit ("No PDFs found in " +:+ path_str PDF_DIR)
  | _ =>
  all_docs ← log (extend_all PyPDFLoader_load PDFMinerLoader_load pdf_files []);
  match all_docs with
  | [] => raise_SystemExit
      "No text extracted from any PDF. If they’re scanned, run OCR (e.g. ocrmypdf) and re-run."
  | _ =>
  chunks ← split chunk_size chunk_overlap all_docs;
  match chunks with
  | [] => raise_SystemExit
      "Text was extracted but chunking produced 0 chunks; adjust splitter settings."
  | _ =>
  db ← Chroma_from_documents chunks;
  Chroma_persist PERSIST_DIR db;;
  log (print ("✅ Embedded " +:+ pretty (length chunks) +:+ " chunks from "
              +:+ pretty (length all_docs) +:+ " pages into "
              +:+ path_str PERSIST_DIR))
  end end end.

(** The values the script binds to [pdf_files], [all_docs] and [chunks]. *)
Definition pdf_files : list Path := sorted (glob_paths PDF_DIR ".pdf").

Definition all_docs : list Document :=
  (extend_all PyPDFLoader_load PDFMinerLoader_load pdf_files []).2.

Definition chunks : list Document :=
  split_documents chunk_size chunk_overlap all_docs.

(** The three events every run starts with. *)
Definition prologue : list Event :=
  [EvMkdir PERSIST_DIR;
   EvPrint ("Looking for PDFs in: " +:+ path_str PDF_DIR);
   EvGlob PDF_DIR "*.pdf"].

(** The on-disk state once [PERSIST_DIR.mkdir] has run. *)
Definition after_mkdir (w : World) : World :=
  {| dirs := dirs w ∪ list_to_set (path_self_and_parents PERSIST_DIR);
     chroma := chroma w |}.

(** The records a run adds to the store: what the final collection holds
    beyond the initial one. *)
Definition persisted_by_run (w : World) : list EmbeddingRecord :=
  drop (length (chroma w)) (chroma (main w).1.2).

End Process.

Arguments EmbeddingRecord Vec : clear implicits.
Arguments World Vec : clear implicits.
Arguments Proc Vec A : clear implicits.

(** The loader invocations of a trace, in order. *)
Definition load_calls (t : list Event) : list (Extractor * string) :=
  omap (λ e, match e with EvLoad x file => Some (x, file) | _ => None end) t.

(** ** The splitter the script instantiates

    [RecursiveCharacterTextSplitter] belongs to the third-party package
    [langchain_text_splitters], not to this repository.  The module below
    follows that class with its default arguments (separators
    ["\n\n"], ["\n"], [" "], [""]; [keep_separator=True];
    [strip_whitespace=True]; [length_function=len]), so that the pipeline can
    be run on concrete inputs. *)
Module LangChain.

(** [re.search(re.escape(sep), text) is not None]. *)
Fixpoint contains (sep text : string) : bool :=
  String.prefix sep text
  || match text with
     | EmptyString => false
     | String _ text' => contains sep text'
     end.

(** [re.split] at the occurrences of a non-empty [sep], each separator kept
    at the start of the piece that follows it.  [skip] counts the
    characters of the current occurrence still to pass, [cur] is the piece
    being read. *)
Fixpoint split_keep (sep : string) (skip : nat) (cur text : string)
    : list string :=
  match text with
  | EmptyString => [cur]
  | String c text' =>
      match skip with
      | S k => split_keep sep k (cur +:+ String c "") text'
      | O =>
          if String.prefix sep text
          then cur :: split_keep sep (String.length sep - 1) (String c "") text'
          else split_keep sep 0 (cur +:+ String c "") text'
      end
  end.

(** [list(text)]. *)
Fixpoint chars (text : string) : list string :=
  match text with
  | EmptyString => []
  | String c text' => String c "" :: chars text'
  end.

(** [_split_text_with_regex(text, separator, keep_separator=True)]. *)
Definition _split_text_with_regex (text separator : string) : list string :=
  filter (λ s, s ≠ "")
    (if decide (separator = "") then chars text
     else split_keep separator 0 "" text).

(** [TextSplitter._join_docs]: [None] for a chunk that is blank. *)
Definition _join_docs (docs : list string) (separator : string)
    : option string :=
  let text := strip (join separator docs) in
  if decide (text = "") then None else Some text.

(** The [while] loop of [_merge_splits]: drop pieces from the front of
    [current_doc] until what is left fits the overlap and the next piece. *)
Fixpoint drop_front (chunk_size chunk_overlap separator_len len_d : nat)
    (current_doc : list string) (total : nat) : list string * nat :=
  match current_doc with
  | [] => ([], total)
  | x :: rest =>
      if (chunk_overlap <? total)
         || ((chunk_size <? total + len_d + separator_len) && (0 <? total))
      then drop_front chunk_size chunk_overlap separator_len len_d rest
             (total - (String.length x
                       + match rest with [] => 0 | _ => separator_len end))
      else (current_doc, total)
  end.

(** The [for] loop of [_merge_splits] with its three variables. *)
Fixpoint merge_loop (chunk_size chunk_overlap : nat) (separator : string)
    (splits docs current_doc : list string) (total : nat) : list string :=
  let separator_len := String.length separator in
  match splits with
  | [] => docs ++ option_list (_join_docs current_doc separator)
  | d :: splits' =>
      let _len := String.length d in
      match current_doc with
      | [] => merge_loop chunk_size chunk_overlap separator splits'
                docs [d] (total + _len)
      | _ :: _ =>
          if chunk_size <? total + _len + separator_len then
            let docs' := docs ++ option_list (_join_docs current_doc separator) in
            let '(current_doc', total') :=
              drop_front chunk_size chunk_overlap separator_len _len
                current_doc total in
            merge_loop chunk_size chunk_overlap separator splits' docs'
              (current_doc' ++ [d])
              (total' + _len
               + match current_doc' with [] => 0 | _ => separator_len end)
          else
            merge_loop chunk_size chunk_overlap separator splits' docs
              (current_doc ++ [d]) (total + _len + separator_len)
      end
  end.

(** [TextSplitter._merge_splits(splits, separator)]. *)
Definition _merge_splits (chunk_size chunk_overlap : nat)
    (splits : list string) (separator : string) : list string :=
  merge_loop chunk_size chunk_overlap separator splits [] [] 0.

(** The loop over [splits] in [_split_text]: short pieces are collected in
    [_good_splits] and merged, a piece that is too long is handed to
    [recur]. *)
Fixpoint collect (chunk_size chunk_overlap : nat)
    (recur : string → list string) (splits _good_splits : list string)
    : list string :=
  let flush :=
    match _good_splits with
    | [] => []
    | _ => _merge_splits chunk_size chunk_overlap _good_splits ""
    end in
  match splits with
  | [] => flush
  | s :: splits' =>
      if String.length s <? chunk_size
      then collect chunk_size chunk_overlap recur splits' (_good_splits ++ [s])
      else flush ++ recur s ++ collect chunk_size chunk_overlap recur splits' []
  end.

(** [RecursiveCharacterTextSplitter._split_text(text, separators)]: the
    first separator that occurs in the text is used (the last one when none
    does), and the pieces that stay too long are split again with the
    separators after it. *)
Fixpoint _split_text (chunk_size chunk_overlap : nat)
    (separators : list string) (text : string) : list string :=
  match separators with
  | [] => []
  | s :: rest =>
      if decide (s = "") then
        collect chunk_size chunk_overlap (λ t, [t])
          (_split_text_with_regex text "") []
      else
        match rest with
        | [] =>
            collect chunk_size chunk_overlap (λ t, [t])
              (_split_text_with_regex text s) []
        | _ :: _ =>
            if contains s text then
              collect chunk_size chunk_overlap
                (_split_text chunk_size chunk_overlap rest)
                (_split_text_with_regex text s) []
            else _split_text chunk_size chunk_overlap rest text
        end
  end.

Definition separators : list string :=
  [String "010" (String "010" ""); String "010" ""; " "; ""].

(** [splitter.split_text(text)]. *)
Definition split_text (chunk_size chunk_overlap : nat) (text : string)
    : list string :=
  _split_text chunk_size chunk_overlap separators text.

(** [TextSplitter.create_documents] for one input document: one output
    document per chunk, each with a copy of the input's metadata. *)
Definition chunks_of (chunk_size chunk_overlap : nat) (doc : Document)
    : list Document :=
  map (λ chunk, {| page_content := chunk; metadata := metadata doc |})
    (split_text chunk_size chunk_overlap (page_content doc)).

(** [splitter.split_documents(documents)]: every document is split on its
    own, the results follow each other in the order of the input. *)
Definition split_documents (chunk_size chunk_overlap : nat)
    (documents : list Document) : list Document :=
  concat (map (chunks_of chunk_size chunk_overlap) documents).

End LangChain.

(** ** Concrete inputs

    Small directories and loaders on which the pipeline is run below. *)
Module Examples.

Definition root : Path := ["srv"; "GuidelineMonkey"].

Definition doc (file text : string) (page : option nat) : Document :=
  {| page_content := text; metadata := {| source := file; page := page |} |}.

(** An input directory without any PDF. *)
Definition scandir_no_pdf : Path → list string :=
  λ _, ["notes.txt"; "pdf"].

(** An input directory with three PDFs, and the same entries enumerated in
    another order. *)
Definition scandir_three : Path → list string :=
  λ _, ["b.pdf"; "README.md"; "a.pdf"; "c.pdf"].
Definition scandir_three' : Path → list string :=
  λ _, ["c.pdf"; "a.pdf"; "README.md"; "b.pdf"].

Definition a_pdf : Path := PDF_DIR root // "a.pdf".
Definition b_pdf : Path := PDF_DIR root // "b.pdf".
Definition c_pdf : Path := PDF_DIR root // "c.pdf".

(** PyPDF fails on [a.pdf], finds only blank pages in [b.pdf] and reads two
    pages of text everywhere else. *)
Definition pypdf (file : string) : LoadResult :=
  if decide (file = path_str a_pdf) then Raised "EOF marker not found"
  else if decide (file = path_str b_pdf)
  then Loaded [doc file " " (Some 0); doc file "" (Some 1)]
  else Loaded [doc file "Wash hands." (Some 0); doc file "Wear gloves." (Some 1)].

(** PDFMiner finds no text in [a.pdf] and fails on every other file. *)
Definition pdfminer (file : string) : LoadResult :=
  if decide (file = path_str a_pdf) then Loaded [doc file "" None]
  else Raised "No /Root object".

(** A one-file directory, read either as one page or as two pages with the
    same characters. *)
Definition scandir_one : Path → list string := λ _, ["a.pdf"].
Definition pypdf_one_page (file : string) : LoadResult :=
  Loaded [doc file "ab" (Some 0)].
Definition pypdf_two_pages (file : string) : LoadResult :=
  Loaded [doc file "a" (Some 0); doc file "b" (Some 1)].

(** An embedding model into a one-dimensional space. *)
Definition embed (text : string) : nat := String.length text.

(** The folders the libraries set up: a segment of the collection and the
    model cache. *)
Definition library_dirs : gset Path :=
  {[ PERSIST_DIR root // "segment"; ["home"; "user"; ".cache"] ]}.

(** An initial state with nothing on disk. *)
Definition fresh : World nat := {| dirs := ∅; chroma := [] |}.

End Examples.

(** ** Observations on traces and texts *)

#[global] Instance Extractor_eq_dec : EqDecision Extractor.
Proof. solve_decision. Defined.

(** The files extractor [x] was invoked on, in order. *)
Definition calls_of (x : Extractor) (t : list Event) : list string :=
  omap (λ e, match e with
             | EvLoad y file => if decide (y = x) then Some file else None
             | _ => None
             end) t.

(** A printed line of the form [[warn] ...]. *)
Definition is_warning (e : Event) : bool :=
  match e with
  | EvPrint line => String.prefix "[warn] " line
  | _ => false
  end.

(** The events of the embedding and persistence step. *)
Definition writes_store (e : Event) : bool :=
  match e with
  | EvEmbed _ | EvPersist _ => true
  | _ => false
  end.

(** A text made of whitespace only ([""] included). *)
Fixpoint all_space (s : string) : bool :=
  match s with
  | EmptyString => true
  | String c s' => isspace c && all_space s'
  end.

(** More inputs: loaders that never raise, and a directory whose only PDF
    has blank pages. *)
Module MoreExamples.

Definition pdfminer_blank (file : string) : LoadResult :=
  Loaded [Examples.doc file "" None].

Definition pdfminer_text (file : string) : LoadResult :=
  Loaded [Examples.doc file "Use soap." None].

Definition scandir_blank_only : Path → list string :=
  λ _, ["b.pdf"; "b.PDF"; "b.pdf.bak"].

End MoreExamples.

(** * Properties *)

(** ** The order on paths and [sorted] *)

#[global] Instance path_le_total : Total path_le.
Proof.
  intros p. induction p as [|a p IH]; intros [|b q]; simpl; auto.
  destruct (decide (a = b)) as [->|Hab].
  - rewrite decide_True by done. apply IH.
  - rewrite decide_False by congruence. apply (total String.le).
Qed.

#[global] Instance path_le_antisym : AntiSymm (=) path_le.
Proof.
  intros p. induction p as [|a p IH]; intros [|b q]; simpl; try done.
  destruct (decide (a = b)) as [->|Hab].
  - rewrite decide_True by done. intros H1 H2. f_equal. by apply IH.
  - rewrite decide_False by congruence. intros H1 H2.
    destruct Hab. by apply (anti_symm String.le).
Qed.

#[global] Instance path_le_trans : Transitive path_le.
Proof.
  intros p. induction p as [|a p IH]; intros [|b q] [|c r]; simpl; try done.
  destruct (decide (a = b)) as [->|Hab].
  - destruct (decide (b = c)) as [->|Hbc]; [apply IH | done].
  - destruct (decide (b = c)) as [->|Hbc].
    + rewrite decide_False by done. done.
    + intros H1 H2. destruct (decide (a = c)) as [->|Hac].
      * destruct Hab. by apply (anti_symm String.le).
      * by trans b.
Qed.

Lemma sorted_Permutation (paths : list Path) : sorted paths ≡ₚ paths.
Proof. apply merge_sort_Permutation. Qed.

Lemma sorted_Sorted (paths : list Path) : Sorted path_le (sorted paths).
Proof. apply (Sorted_merge_sort path_le). Qed.

(** Two enumerations of the same entries are sorted to the same list. *)
Lemma sorted_perm_eq (l1 l2 : list Path) : l1 ≡ₚ l2 → sorted l1 = sorted l2.
Proof.
  intros Hp. apply (Sorted_unique path_le); try apply sorted_Sorted.
  by rewrite !sorted_Permutation.
Qed.

Lemma sorted_nil_iff (paths : list Path) : sorted paths = [] ↔ paths = [].
Proof.
  split; [|by intros ->].
  intros H. apply Permutation_nil_r. rewrite <-H.
  symmetry. apply sorted_Permutation.
Qed.

(** ** Traces *)

Lemma load_calls_app (t1 t2 : list Event) :
  load_calls (t1 ++ t2) = load_calls t1 ++ load_calls t2.
Proof. apply omap_app. Qed.

Lemma Log_bind_eq {A B} (m : Log A) (f : A → Log B) :
  (m ≫= f) = (m.1 ++ (f m.2).1, (f m.2).2).
Proof. destruct m as [t a]. unfold mbind, Log_bind. simpl. by destruct (f a). Qed.

Lemma total_stripped_len_nil : total_stripped_len [] = 0.
Proof. reflexivity. Qed.

Lemma total_len_nil : total_len [] = 0.
Proof. reflexivity. Qed.

Lemma total_len_pos_nonempty (pages : list Document) :
  total_len pages ≠ 0 → pages ≠ [].
Proof. by intros H ->. Qed.

Section ExtractionFacts.

Variable PyPDFLoader_load : string → LoadResult.
Variable PDFMinerLoader_load : string → LoadResult.

#[local] Abbreviation extract_pages := (extract_pages PyPDFLoader_load PDFMinerLoader_load).
#[local] Abbreviation extend_all := (extend_all PyPDFLoader_load PDFMinerLoader_load).
#[local] Abbreviation primary_pages := (primary_pages PyPDFLoader_load).
#[local] Abbreviation final_pages := (final_pages PyPDFLoader_load PDFMinerLoader_load).

Lemma try_load_result x load path pages :
  (try_load x load path pages).2 = loaded_or (load (path_str path)) pages.
Proof. unfold try_load. by destruct (load _). Qed.

Lemma try_load_calls x load path pages :
  load_calls (try_load x load path pages).1 = [(x, path_str path)].
Proof. unfold try_load. by destruct (load _). Qed.

(** The warning a [try] block prints when its loader raises. *)
Lemma try_load_warns x load path pages e :
  load (path_str path) = Raised e →
  EvPrint ("[warn] " +:+ extractor_name x +:+ " failed for "
           +:+ path_name path +:+ ": " +:+ e)
    ∈ (try_load x load path pages).1.
Proof. intros H. unfold try_load. rewrite H. simpl. set_solver. Qed.

(** [extract_pages] as a trace and a result. *)
Lemma extract_pages_eq path :
  extract_pages path =
    ((try_load PyPDF PyPDFLoader_load path []).1
     ++ (if decide (total_stripped_len (primary_pages path) = 0)
         then (try_load PDFMiner PDFMinerLoader_load path (primary_pages path)).1
         else [])
     ++ [EvPrint
           (if decide (total_len (final_pages path) = 0)
            then "[skip] " +:+ path_name path
                 +:+ ": no extractable text (likely scanned)."
            else "[ok] " +:+ path_name path +:+ ": "
                 +:+ pretty (length (final_pages path)) +:+ " pages, "
                 +:+ pretty (total_len (final_pages path)) +:+ " chars.")],
     if decide (total_len (final_pages path) = 0) then [] else final_pages path).
Proof.
  unfold extract_pages, final_pages, primary_pages.
  rewrite !Log_bind_eq, !try_load_result.
  set (primary := loaded_or (PyPDFLoader_load (path_str path)) []).
  destruct (decide (total_stripped_len primary = 0)) as [Hs|Hs];
    [rewrite try_load_result|]; simpl;
    match goal with |- context [decide (total_len ?p = 0)] =>
      destruct (decide (total_len p = 0)) end;
    simpl; by rewrite ?app_nil_r.
Qed.

Lemma extract_pages_result path :
  (extract_pages path).2 =
    if decide (total_len (final_pages path) = 0) then [] else final_pages path.
Proof. by rewrite extract_pages_eq. Qed.

Lemma extract_pages_calls path :
  load_calls (extract_pages path).1 =
    (PyPDF, path_str path)
    :: (if decide (total_stripped_len (primary_pages path) = 0)
        then [(PDFMiner, path_str path)] else []).
Proof.
  rewrite extract_pages_eq. simpl. rewrite !load_calls_app, try_load_calls.
  destruct (decide _); [rewrite try_load_calls|]; by simpl.
Qed.

(** C1: for every path, extraction invokes the primary extractor (PyPDF)
    first; the fallback extractor (PDFMiner) is invoked next exactly when
    the primary result is empty (no character other than whitespace, which
    includes the case that PyPDF raised); and when the page list is still
    empty afterwards (no character at all) the file is skipped:
    [extract_pages] prints the skip line and returns the empty list. *)
Theorem extract_pages_primary_then_fallback (path : Path) :
  load_calls (extract_pages path).1 =
    (PyPDF, path_str path)
    :: (if decide (total_stripped_len (primary_pages path) = 0)
        then [(PDFMiner, path_str path)] else [])
  ∧ (extract_pages path).2 =
      (if decide (total_len (final_pages path) = 0) then []
       else final_pages path)
  ∧ (if decide (total_len (final_pages path) = 0)
     then last (extract_pages path).1 =
            Some (EvPrint ("[skip] " +:+ path_name path
                           +:+ ": no extractable text (likely scanned)."))
     else True).
Proof.
  split; [apply extract_pages_calls|]. split; [apply extract_pages_result|].
  rewrite extract_pages_eq. simpl.
  destruct (decide (total_len (final_pages path) = 0)); [|done].
  by rewrite !app_assoc, last_snoc.
Qed.

(** C9 (as amended): [extract_pages] returns the empty list if and only
    if the raw character total of the final page list is zero, and the
    fallback extractor is invoked if and only if the stripped character
    total of the primary result is zero.  So a file whose PyPDF text is
    whitespace-only (raw total nonzero, stripped total zero) triggers the
    fallback, and what happens to it is decided there: if PDFMiner raises,
    PyPDF's pages are kept and returned; if PDFMiner loads pages, they
    replace PyPDF's, and the file is returned when they hold a character
    and skipped when they hold none.  Whenever the final page list is
    whitespace-only with a nonzero raw total, the fallback was tried and
    the file is returned as extracted, not skipped. *)
Theorem extract_pages_empty_iff_raw_zero (path : Path) :
  ((extract_pages path).2 = [] ↔ total_len (final_pages path) = 0)
  ∧ ((PDFMiner, path_str path) ∈ load_calls (extract_pages path).1
     ↔ total_stripped_len (primary_pages path) = 0)
  ∧ (total_stripped_len (final_pages path) = 0 →
     total_len (final_pages path) ≠ 0 →
     (PDFMiner, path_str path) ∈ load_calls (extract_pages path).1
     ∧ (extract_pages path).2 = final_pages path
     ∧ (extract_pages path).2 ≠ [])
  ∧ (total_stripped_len (primary_pages path) = 0 →
     total_len (primary_pages path) ≠ 0 →
     (PDFMiner, path_str path) ∈ load_calls (extract_pages path).1
     ∧ (extract_pages path).2 =
         match PDFMinerLoader_load (path_str path) with
         | Loaded ps => if decide (total_len ps = 0) then [] else ps
         | Raised _ => primary_pages path
         end).
Proof.
  rewrite extract_pages_result, extract_pages_calls.
  assert (Hfb : (PDFMiner, path_str path)
      ∈ (PyPDF, path_str path)
        :: (if decide (total_stripped_len (primary_pages path) = 0)
            then [(PDFMiner, path_str path)] else [])
      ↔ total_stripped_len (primary_pages path) = 0).
  { destruct (decide _) as [H|H].
    - split; [done|]. intros _. apply list_elem_of_further, list_elem_of_here.
    - split; [|done]. intros Hin. apply list_elem_of_singleton in Hin.
      discriminate. }
  split; [|split; [exact Hfb|split]].
  - destruct (decide (total_len (final_pages path) = 0)) as [H|H]; [by split|].
    split; [|done]. intros Hnil. by apply total_len_pos_nonempty in H.
  - intros Hs Hr.
    destruct (decide (total_len (final_pages path) = 0)); [done|].
    split; [|split; [done|by apply total_len_pos_nonempty]].
    apply Hfb. unfold final_pages in Hs.
    destruct (decide (total_stripped_len (primary_pages path) = 0)); done.
  - intros Hs Hr. split; [by apply Hfb|]. unfold final_pages.
    destruct (decide (total_stripped_len (primary_pages path) = 0)); [|done].
    destruct (PDFMinerLoader_load (path_str path)) as [ps|err]; simpl; [done|].
    by destruct (decide (total_len (primary_pages path) = 0)).
Qed.

(** The loop of lines 37-39 as the concatenation of what each file gives. *)
Lemma extend_all_eq (files : list Path) (acc : list Document) :
  extend_all files acc =
    (concat (map (λ f, (extract_pages f).1) files),
     acc ++ concat (map (λ f, (extract_pages f).2) files)).
Proof.
  revert acc. induction files as [|f files IH]; intros acc; simpl.
  - by rewrite app_nil_r.
  - rewrite Log_bind_eq, IH. simpl. by rewrite app_assoc.
Qed.

(** A file from which both extractors get no character (a loader that
    raises gets none) contributes no page. *)
Lemma extract_pages_nothing (path : Path) :
  total_len (loaded_or (PyPDFLoader_load (path_str path)) []) = 0 →
  total_len (loaded_or (PDFMinerLoader_load (path_str path)) []) = 0 →
  (extract_pages path).2 = [].
Proof.
  intros H1 H2. rewrite extract_pages_result.
  destruct (decide (total_len (final_pages path) = 0)) as [|Hne]; [done|].
  destruct Hne. unfold final_pages, primary_pages.
  destruct (decide _); [|done].
  destruct (PDFMinerLoader_load (path_str path)); simpl in *; done.
Qed.

(** Every page [extract_pages] returns was returned by one of the loaders
    for that path, and the returned list has characters. *)
Lemma extract_pages_origin (path : Path) (d : Document) :
  d ∈ (extract_pages path).2 →
  total_len (extract_pages path).2 ≠ 0
  ∧ ∃ x ps, (match x with PyPDF => PyPDFLoader_load
                     | PDFMiner => PDFMinerLoader_load end) (path_str path)
            = Loaded ps ∧ d ∈ ps.
Proof.
  rewrite extract_pages_result.
  destruct (decide (total_len (final_pages path) = 0)) as [|Hne].
  { by intros ?%not_elem_of_nil. }
  intros Hd. split; [done|]. revert Hd. unfold final_pages, primary_pages.
  destruct (decide _) as [Hs|Hs].
  - destruct (PDFMinerLoader_load (path_str path)) as [ps|e] eqn:Hm; simpl.
    + intros Hd. by exists PDFMiner, ps.
    + destruct (PyPDFLoader_load (path_str path)) as [ps|e'] eqn:Hp; simpl.
      * intros Hd. by exists PyPDF, ps.
      * by intros ?%not_elem_of_nil.
  - destruct (PyPDFLoader_load (path_str path)) as [ps|e'] eqn:Hp; simpl.
    + intros Hd. by exists PyPDF, ps.
    + by intros ?%not_elem_of_nil.
Qed.

End ExtractionFacts.

(** ** The script as a whole *)

Section PipelineFacts.

Context {Vec : Type}.
Variable scandir : Path → list string.
Variable PyPDFLoader_load : string → LoadResult.
Variable PDFMinerLoader_load : string → LoadResult.
Variable split_documents : nat → nat → list Document → list Document.
Variable embed : string → Vec.
Variable library_dirs : gset Path.
Variable REPO_ROOT : Path.

(** The bindings of the script, unfolded. *)
Lemma pdf_files_eq :
  pdf_files scandir REPO_ROOT = sorted (glob_paths scandir (PDF_DIR REPO_ROOT) ".pdf").
Proof. reflexivity. Qed.

Lemma all_docs_eq :
  all_docs scandir PyPDFLoader_load PDFMinerLoader_load REPO_ROOT =
    (extend_all PyPDFLoader_load PDFMinerLoader_load
       (pdf_files scandir REPO_ROOT) []).2.
Proof. reflexivity. Qed.

Lemma chunks_eq :
  chunks scandir PyPDFLoader_load PDFMinerLoader_load split_documents REPO_ROOT =
    split_documents chunk_size chunk_overlap
      (all_docs scandir PyPDFLoader_load PDFMinerLoader_load REPO_ROOT).
Proof. reflexivity. Qed.

Lemma main_bind_eq (w : World Vec) :
  main scandir PyPDFLoader_load PDFMinerLoader_load split_documents embed library_dirs
    REPO_ROOT w =
  match pdf_files scandir REPO_ROOT with
  | [] => (prologue REPO_ROOT, after_mkdir REPO_ROOT w,
           SystemExit ("No PDFs found in " +:+ path_str (PDF_DIR REPO_ROOT)))
  | _ :: _ =>
    let '(t, docs) :=
      extend_all PyPDFLoader_load PDFMinerLoader_load
        (pdf_files scandir REPO_ROOT) [] in
    match docs with
    | [] => (prologue REPO_ROOT ++ t, after_mkdir REPO_ROOT w,
             SystemExit
               "No text extracted from any PDF. If they’re scanned, run OCR (e.g. ocrmypdf) and re-run.")
    | _ :: _ =>
      let cs := split_documents chunk_size chunk_overlap docs in
      match cs with
      | [] => (prologue REPO_ROOT ++ t ++ [EvSplit chunk_size chunk_overlap],
               after_mkdir REPO_ROOT w,
               SystemExit
                 "Text was extracted but chunking produced 0 chunks; adjust splitter settings.")
      | _ :: _ =>
          (prologue REPO_ROOT ++ t
           ++ [EvSplit chunk_size chunk_overlap;
               EvEmbed (map page_content cs);
               EvPersist (PERSIST_DIR REPO_ROOT);
               EvPrint ("✅ Embedded " +:+ pretty (length cs)
                        +:+ " chunks from " +:+ pretty (length docs)
                        +:+ " pages into " +:+ path_str (PERSIST_DIR REPO_ROOT))],
           {| dirs := dirs (after_mkdir REPO_ROOT w) ∪ library_dirs;
              chroma := chroma w ++ map (embedding_record embed) cs |},
           Return ())
      end
    end
  end.
Proof.
  unfold main, pdf_files.
  unfold mbind, Proc_bind, fmap, Proc_fmap, mbind, Proc_bind, mret, Proc_ret,
    mkdir_parents, log, glob_star, raise_SystemExit.
  cbn -[extend_all sorted pretty String.append].
  destruct (sorted _) as [|f files] eqn:Hfiles; [done|].
  cbn -[extend_all sorted pretty String.append].
  destruct (extend_all PyPDFLoader_load PDFMinerLoader_load (f :: files) [])
    as [t docs] eqn:Hdocs.
  cbn -[extend_all sorted pretty String.append].
  destruct docs as [|d docs]; [by rewrite app_nil_r|].
  unfold split, Chroma_from_documents, Chroma_persist.
  cbn -[extend_all sorted pretty String.append].
  destruct (split_documents _ _ _) as [|c cs] eqn:Hchunks.
  - by cbn -[extend_all sorted pretty String.append].
  - by cbn -[extend_all sorted pretty String.append].
Qed.

#[local] Abbreviation extract_pages :=
  (extract_pages PyPDFLoader_load PDFMinerLoader_load).
#[local] Abbreviation extend_all :=
  (extend_all PyPDFLoader_load PDFMinerLoader_load).
#[local] Abbreviation PDF_DIR := (PDF_DIR REPO_ROOT).
#[local] Abbreviation PERSIST_DIR := (PERSIST_DIR REPO_ROOT).
#[local] Abbreviation pdf_files := (pdf_files scandir REPO_ROOT).
#[local] Abbreviation all_docs :=
  (all_docs scandir PyPDFLoader_load PDFMinerLoader_load REPO_ROOT).
#[local] Abbreviation chunks :=
  (chunks scandir PyPDFLoader_load PDFMinerLoader_load split_documents
     REPO_ROOT).
#[local] Abbreviation main :=
  (main scandir PyPDFLoader_load PDFMinerLoader_load split_documents embed library_dirs
     REPO_ROOT).
#[local] Abbreviation prologue := (prologue REPO_ROOT).
#[local] Abbreviation after_mkdir := (after_mkdir REPO_ROOT).

(** Case analysis along the three emptiness checks of the script. *)
#[local] Ltac run_cases :=
  destruct pdf_files; [|destruct all_docs; [|destruct chunks]].

(** A run of the script, case by case. *)
Lemma main_eq (w : World Vec) :
  main w =
    match pdf_files with
    | [] => (prologue, after_mkdir w,
             SystemExit ("No PDFs found in " +:+ path_str PDF_DIR))
    | _ :: _ =>
      match all_docs with
      | [] => (prologue ++ (extend_all pdf_files []).1, after_mkdir w,
               SystemExit
                 "No text extracted from any PDF. If they’re scanned, run OCR (e.g. ocrmypdf) and re-run.")
      | _ :: _ =>
        match chunks with
        | [] => (prologue ++ (extend_all pdf_files []).1
                 ++ [EvSplit chunk_size chunk_overlap],
                 after_mkdir w,
                 SystemExit
                   "Text was extracted but chunking produced 0 chunks; adjust splitter settings.")
        | _ :: _ =>
            (prologue ++ (extend_all pdf_files []).1
             ++ [EvSplit chunk_size chunk_overlap;
                 EvEmbed (map page_content chunks);
                 EvPersist PERSIST_DIR;
                 EvPrint ("✅ Embedded " +:+ pretty (length chunks)
                          +:+ " chunks from " +:+ pretty (length all_docs)
                          +:+ " pages into " +:+ path_str PERSIST_DIR)],
             {| dirs := dirs (after_mkdir w) ∪ library_dirs;
                chroma := chroma w
                          ++ map (embedding_record embed) chunks |},
             Return ())
        end
      end
    end.
Proof.
  rewrite main_bind_eq, chunks_eq, all_docs_eq.
  destruct pdf_files as [|f files] eqn:Hfiles; [done|].
  by destruct (extend_all (f :: files) []) as [t [|d docs]].
Qed.

Lemma pdf_files_nil_iff :
  pdf_files = [] ↔ filter (λ n, endswith n ".pdf") (scandir PDF_DIR) = [].
Proof.
  rewrite pdf_files_eq, sorted_nil_iff. unfold glob_paths.
  split; [apply fmap_nil_inv | by intros ->].
Qed.

Lemma all_docs_concat :
  all_docs = concat (map (λ f, (extract_pages f).2) pdf_files).
Proof. by rewrite all_docs_eq, extend_all_eq. Qed.


(** The loader invocations of a run are those of the files of [pdf_files],
    file after file. *)
Lemma main_load_calls (w : World Vec) :
  load_calls (main w).1.1 =
    concat (map (λ f, load_calls (extract_pages f).1) pdf_files).
Proof.
  assert (Hagg : ∀ files,
    load_calls (concat (map (λ f, (extract_pages f).1) files))
    = concat (map (λ f, load_calls (extract_pages f).1) files)).
  { induction files as [|f files IH]; [done|].
    simpl. by rewrite load_calls_app, IH. }
  rewrite main_eq. destruct pdf_files as [|f files]; [done|].
  rewrite <-Hagg, extend_all_eq.
  destruct all_docs; [|destruct chunks]; simpl;
    rewrite !load_calls_app; simpl; by rewrite ?app_nil_r.
Qed.

(** What the loop logs is part of the trace of the run. *)
Lemma main_trace_extraction (w : World Vec) (ev : Event) :
  pdf_files ≠ [] → ev ∈ (extend_all pdf_files []).1 → ev ∈ (main w).1.1.
Proof.
  intros Hne Hev. rewrite main_eq. destruct pdf_files as [|f files]; [done|].
  destruct all_docs; [|destruct chunks]; simpl;
    rewrite ?elem_of_cons, ?elem_of_app; auto 10.
Qed.

(** How a run ends, case by case. *)
Lemma main_result (w : World Vec) :
  (main w).2 =
    match pdf_files, all_docs, chunks with
    | [], _, _ => SystemExit ("No PDFs found in " +:+ path_str PDF_DIR)
    | _ :: _, [], _ =>
        SystemExit
          "No text extracted from any PDF. If they’re scanned, run OCR (e.g. ocrmypdf) and re-run."
    | _ :: _, _ :: _, [] =>
        SystemExit
          "Text was extracted but chunking produced 0 chunks; adjust splitter settings."
    | _ :: _, _ :: _, _ :: _ => Return ()
    end.
Proof.
  rewrite main_eq. by run_cases.
Qed.

(** C3: the run ends with a non-zero exit status exactly when [pdf_files]
    is empty, or the aggregated page list [all_docs] is empty, or the list
    of chunks is empty; each case stops the run with its own [SystemExit]
    message, and in every other case the script runs to its last line. *)
Theorem main_exits_in_three_cases (w : World Vec) :
  (exit_status (main w).2 ≠ 0 ↔ pdf_files = [] ∨ all_docs = [] ∨ chunks = [])
  ∧ ((main w).2 = SystemExit ("No PDFs found in " +:+ path_str PDF_DIR)
     ↔ pdf_files = [])
  ∧ ((main w).2 =
       SystemExit
         "No text extracted from any PDF. If they’re scanned, run OCR (e.g. ocrmypdf) and re-run."
     ↔ pdf_files ≠ [] ∧ all_docs = [])
  ∧ ((main w).2 =
       SystemExit
         "Text was extracted but chunking produced 0 chunks; adjust splitter settings."
     ↔ pdf_files ≠ [] ∧ all_docs ≠ [] ∧ chunks = [])
  ∧ ((main w).2 = Return () ↔ pdf_files ≠ [] ∧ all_docs ≠ [] ∧ chunks ≠ []).
Proof.
  rewrite main_result.
  destruct pdf_files as [|f files]; [|destruct all_docs as [|d docs];
    [|destruct chunks as [|c cs]]]; cbn [exit_status];
    repeat split; try done; try (intros; discriminate);
    try (by intros [? ?]); try (by intros (? & ? & ?)); auto;
    try (by intros [|[|]]).
Qed.

(** C5: when no entry of the input directory matches [*.pdf], the run
    stops with the error "No PDFs found" and a non-zero status, and its
    trace is the three opening events only: no loader has been invoked on
    any file. *)
Theorem no_pdfs_exit_before_extraction (w : World Vec) :
  filter (λ n, endswith n ".pdf") (scandir PDF_DIR) = [] →
  (main w).2 = SystemExit ("No PDFs found in " +:+ path_str PDF_DIR)
  ∧ exit_status (main w).2 ≠ 0
  ∧ (main w).1.1 = prologue
  ∧ load_calls (main w).1.1 = [].
Proof.
  intros Hnone%pdf_files_nil_iff. rewrite main_load_calls, main_eq, Hnone. done.
Qed.


(** C8: [all_docs] is the concatenation, in the order of [pdf_files], of
    the page lists the files yield, and so is the trace of the loop; for
    any position in the list of files, the loop first handles all files
    before it, then the file itself from its first event to its last page,
    and only then the files after it. *)
Theorem all_docs_concat_in_order :
  all_docs = concat (map (λ f, (extract_pages f).2) pdf_files)
  ∧ (extend_all pdf_files []).1
    = concat (map (λ f, (extract_pages f).1) pdf_files)
  ∧ ∀ files1 f files2 acc,
      extend_all (files1 ++ f :: files2) acc =
        ((extend_all files1 []).1 ++ (extract_pages f).1
         ++ (extend_all files2 []).1,
         acc ++ (extend_all files1 []).2 ++ (extract_pages f).2
         ++ (extend_all files2 []).2).
Proof.
  split; [apply all_docs_concat|]. split; [by rewrite extend_all_eq|].
  intros files1 f files2 acc. rewrite !extend_all_eq. simpl.
  by rewrite !map_app, !concat_app.
Qed.

(** C6: when a loader raises for a file of [pdf_files] (PyPDF, or PDFMiner
    once it is tried), the warning with the exception text is printed and
    the run goes on: the loop still attempts every file of [pdf_files] in
    order, those after the failing file included, the pages of the other
    files are aggregated as usual, and the run still reaches its last line
    whenever the aggregate and the chunk list are non-empty. *)
Theorem extraction_failure_is_local (w : World Vec)
    (files1 files2 : list Path) (f : Path) (x : Extractor) (e : string) :
  pdf_files = files1 ++ f :: files2 →
  match x with
  | PyPDF => PyPDFLoader_load (path_str f) = Raised e
  | PDFMiner =>
      total_stripped_len (primary_pages PyPDFLoader_load f) = 0
      ∧ PDFMinerLoader_load (path_str f) = Raised e
  end →
  EvPrint ("[warn] " +:+ extractor_name x +:+ " failed for "
           +:+ path_name f +:+ ": " +:+ e) ∈ (main w).1.1
  ∧ load_calls (main w).1.1 =
      concat (map (λ g, load_calls (extract_pages g).1) pdf_files)
  ∧ (∀ g, g ∈ files2 → (PyPDF, path_str g) ∈ load_calls (main w).1.1)
  ∧ all_docs = concat (map (λ g, (extract_pages g).2) files1)
               ++ (extract_pages f).2
               ++ concat (map (λ g, (extract_pages g).2) files2)
  ∧ ((main w).2 = Return () ↔ all_docs ≠ [] ∧ chunks ≠ []).
Proof.
  intros Hfiles Hraise.
  assert (Hne : pdf_files ≠ []).
  { rewrite Hfiles. by destruct files1. }
  split; [|split; [apply main_load_calls|split; [|split]]].
  - apply main_trace_extraction; [done|].
    rewrite extend_all_eq, Hfiles. simpl.
    rewrite map_app, concat_app. simpl.
    apply elem_of_app. right. apply elem_of_app. left.
    rewrite extract_pages_eq. simpl.
    destruct x.
    + apply elem_of_app. left. by apply try_load_warns.
    + destruct Hraise as [Hs Hraise]. rewrite decide_True by done.
      apply elem_of_app. right. apply elem_of_app. left.
      by apply try_load_warns.
  - intros g Hg. rewrite main_load_calls, Hfiles.
    rewrite map_app, concat_app. simpl.
    apply elem_of_app. right. apply elem_of_app. right.
    apply list_elem_of_In, in_concat. exists (load_calls (extract_pages g).1).
    split.
    + apply list_elem_of_In.
      by apply (list_elem_of_fmap_2 (λ g, load_calls (extract_pages g).1)).
    + rewrite extract_pages_calls. by left.
  - rewrite all_docs_concat, Hfiles. by rewrite map_app, concat_app.
  - rewrite main_result. run_cases; [done|..]; split; try done; by intros [? ?].
Qed.

End PipelineFacts.

(** ** Determinism *)

(** C7: two runs on the same directory contents (the same entries, in
    whatever order the operating system enumerates them, read by the same
    loaders and split by the same splitter) bind the same [pdf_files], the
    same [all_docs] and the same list of chunks. *)
Theorem chunks_deterministic (scandir scandir' : Path → list string)
    (PyPDFLoader_load PDFMinerLoader_load : string → LoadResult)
    (split_documents : nat → nat → list Document → list Document)
    (REPO_ROOT : Path) :
  scandir (PDF_DIR REPO_ROOT) ≡ₚ scandir' (PDF_DIR REPO_ROOT) →
  pdf_files scandir REPO_ROOT = pdf_files scandir' REPO_ROOT
  ∧ all_docs scandir PyPDFLoader_load PDFMinerLoader_load REPO_ROOT
    = all_docs scandir' PyPDFLoader_load PDFMinerLoader_load REPO_ROOT
  ∧ chunks scandir PyPDFLoader_load PDFMinerLoader_load split_documents
      REPO_ROOT
    = chunks scandir' PyPDFLoader_load PDFMinerLoader_load split_documents
        REPO_ROOT.
Proof.
  intros Hperm.
  assert (Hfiles : pdf_files scandir REPO_ROOT = pdf_files scandir' REPO_ROOT).
  { rewrite !pdf_files_eq. apply sorted_perm_eq. unfold glob_paths.
    apply fmap_Permutation. by apply filter_Permutation. }
  split; [done|]. rewrite !chunks_eq, !all_docs_eq, Hfiles. done.
Qed.

(** ** The LangChain splitter *)

(** A chunk carries the metadata of the document it was cut from. *)
Lemma LangChain_split_documents_metadata (chunk_size chunk_overlap : nat)
    (docs : list Document) (c : Document) :
  c ∈ LangChain.split_documents chunk_size chunk_overlap docs →
  ∃ d, d ∈ docs ∧ metadata c = metadata d.
Proof.
  unfold LangChain.split_documents. intros Hc.
  apply list_elem_of_In, in_concat in Hc as (l & Hl & Hc).
  apply list_elem_of_In, list_elem_of_fmap in Hl as (d & -> & Hd).
  exists d. split; [done|].
  apply list_elem_of_In in Hc. unfold LangChain.chunks_of in Hc.
  by apply list_elem_of_fmap in Hc as (chunk & -> & _).
Qed.

Lemma LangChain_split_documents_length (chunk_size chunk_overlap : nat)
    (docs : list Document) :
  length (LangChain.split_documents chunk_size chunk_overlap docs) =
    sum_list (map (λ d, length (LangChain.split_text chunk_size chunk_overlap
                                  (page_content d))) docs).
Proof.
  unfold LangChain.split_documents.
  induction docs as [|d docs IH]; [done|].
  simpl. rewrite length_app, IH. f_equal.
  unfold LangChain.chunks_of. by rewrite length_map.
Qed.

(** C2 (as amended): the chunk size and the overlap are the constants 1000
    and 150, and with LangChain's splitter the number of chunks is the sum,
    over the aggregated pages in order, of the number of chunks the
    splitter cuts from the text of that page with these constants: it is
    determined by the sequence of page texts, not by their total length. *)
Theorem chunk_count_per_page (scandir : Path → list string)
    (PyPDFLoader_load PDFMinerLoader_load : string → LoadResult)
    (REPO_ROOT : Path) :
  chunk_size = 1000 ∧ chunk_overlap = 150
  ∧ length (chunks scandir PyPDFLoader_load PDFMinerLoader_load
              LangChain.split_documents REPO_ROOT) =
      sum_list
        (map (λ d, length (LangChain.split_text 1000 150 (page_content d)))
           (all_docs scandir PyPDFLoader_load PDFMinerLoader_load REPO_ROOT)).
Proof.
  split; [done|]. split; [done|].
  rewrite chunks_eq. apply LangChain_split_documents_length.
Qed.

(** C2 (as stated) fails: no function of the total character count, the
    chunk size and the overlap gives the number of chunks.  A PDF read as
    the single page "ab" yields one chunk, a PDF read as the two pages "a"
    and "b" yields two; both have two extracted characters. *)
Lemma chunk_count_not_by_char_count :
  ¬ ∃ count : nat → nat → nat → nat,
      ∀ (scandir : Path → list string)
        (PyPDFLoader_load PDFMinerLoader_load : string → LoadResult)
        (REPO_ROOT : Path),
        all_docs scandir PyPDFLoader_load PDFMinerLoader_load REPO_ROOT ≠ [] →
        length (chunks scandir PyPDFLoader_load PDFMinerLoader_load
                  LangChain.split_documents REPO_ROOT)
        = count (total_len (all_docs scandir PyPDFLoader_load
                              PDFMinerLoader_load REPO_ROOT))
            chunk_size chunk_overlap.
Proof.
  intros [count Hcount].
  pose proof (Hcount Examples.scandir_one Examples.pypdf_one_page
                Examples.pdfminer Examples.root) as H1.
  pose proof (Hcount Examples.scandir_one Examples.pypdf_two_pages
                Examples.pdfminer Examples.root) as H2.
  assert (Ht1 : total_len (all_docs Examples.scandir_one
      Examples.pypdf_one_page Examples.pdfminer Examples.root) = 2)
    by (vm_compute; reflexivity).
  assert (Ht2 : total_len (all_docs Examples.scandir_one
      Examples.pypdf_two_pages Examples.pdfminer Examples.root) = 2)
    by (vm_compute; reflexivity).
  assert (Hc1 : length (chunks Examples.scandir_one Examples.pypdf_one_page
      Examples.pdfminer LangChain.split_documents Examples.root) = 1)
    by (vm_compute; reflexivity).
  assert (Hc2 : length (chunks Examples.scandir_one Examples.pypdf_two_pages
      Examples.pdfminer LangChain.split_documents Examples.root) = 2)
    by (vm_compute; reflexivity).
  rewrite Ht1, Hc1 in H1. rewrite Ht2, Hc2 in H2.
  assert (H12 : 1 = 2); [|discriminate H12].
  etrans; [apply H1 | symmetry; apply H2]; vm_compute; discriminate.
Qed.

(** ** Where persisted chunks come from *)

Section Provenance.

Context {Vec : Type}.
Variable scandir : Path → list string.
Variable PyPDFLoader_load : string → LoadResult.
Variable PDFMinerLoader_load : string → LoadResult.
Variable split_documents : nat → nat → list Document → list Document.
Variable embed : string → Vec.
Variable library_dirs : gset Path.
Variable REPO_ROOT : Path.

(** The loaders record the file they read in the metadata of each page. *)
Hypothesis PyPDF_source : ∀ file ps d,
  PyPDFLoader_load file = Loaded ps → d ∈ ps → source (metadata d) = file.
Hypothesis PDFMiner_source : ∀ file ps d,
  PDFMinerLoader_load file = Loaded ps → d ∈ ps → source (metadata d) = file.

(** The splitter gives each chunk the metadata of a document it was given. *)
Hypothesis split_documents_metadata : ∀ chunk_size chunk_overlap docs c,
  c ∈ split_documents chunk_size chunk_overlap docs →
  ∃ d, d ∈ docs ∧ metadata c = metadata d.

(** The store after a run holds the initial records followed by the
    records of this run, which are those of [chunks] when the run reaches
    its last line and none otherwise. *)
Lemma persisted_by_run_eq (w : World Vec) :
  persisted_by_run scandir PyPDFLoader_load PDFMinerLoader_load
    split_documents embed library_dirs REPO_ROOT w =
  match (main scandir PyPDFLoader_load PDFMinerLoader_load split_documents
           embed library_dirs REPO_ROOT w).2 with
  | Return _ =>
      map (embedding_record embed)
        (chunks scandir PyPDFLoader_load PDFMinerLoader_load split_documents
           REPO_ROOT)
  | SystemExit _ => []
  end.
Proof.
  unfold persisted_by_run. rewrite main_eq.
  destruct (pdf_files _ _); [|destruct (all_docs _ _ _ _);
    [|destruct (chunks _ _ _ _ _)]]; simpl;
    by rewrite ?drop_all, ?drop_app_length.
Qed.

Lemma persisted_by_run_chunk (w : World Vec) (r : EmbeddingRecord Vec) :
  r ∈ persisted_by_run scandir PyPDFLoader_load PDFMinerLoader_load
        split_documents embed library_dirs REPO_ROOT w →
  ∃ c, c ∈ chunks scandir PyPDFLoader_load PDFMinerLoader_load
             split_documents REPO_ROOT
       ∧ r = embedding_record embed c.
Proof.
  rewrite persisted_by_run_eq. destruct (main _ _ _ _ _ _ _ w).2.
  - intros (c & -> & Hc)%list_elem_of_fmap. by exists c.
  - by intros ?%not_elem_of_nil.
Qed.

(** Every chunk was cut from a page that [extract_pages] returned for a
    file of [pdf_files]. *)
Lemma chunk_origin (c : Document) :
  c ∈ chunks scandir PyPDFLoader_load PDFMinerLoader_load split_documents
        REPO_ROOT →
  ∃ g d, g ∈ pdf_files scandir REPO_ROOT
         ∧ d ∈ (extract_pages PyPDFLoader_load PDFMinerLoader_load g).2
         ∧ metadata c = metadata d.
Proof.
  rewrite chunks_eq. intros (d & Hd & Hmeta)%split_documents_metadata.
  rewrite all_docs_concat in Hd.
  apply list_elem_of_In, in_concat in Hd as (l & Hl & Hd).
  apply list_elem_of_In, list_elem_of_fmap in Hl as (g & -> & Hg).
  apply list_elem_of_In in Hd. by exists g, d.
Qed.

(** C4: every record a run persists carries the metadata of a page that
    [extract_pages] returned for a file of [pdf_files], a file whose
    returned pages have characters and whose path is the record's source;
    and a file from which both extractors get no character contributes no
    page, no chunk refers to it and no persisted record refers to it. *)
Theorem persisted_chunks_have_text (w : World Vec) :
  (∀ r, r ∈ persisted_by_run scandir PyPDFLoader_load PDFMinerLoader_load
              split_documents embed library_dirs REPO_ROOT w →
     ∃ g d, g ∈ pdf_files scandir REPO_ROOT
            ∧ d ∈ (extract_pages PyPDFLoader_load PDFMinerLoader_load g).2
            ∧ total_len
                (extract_pages PyPDFLoader_load PDFMinerLoader_load g).2 ≠ 0
            ∧ rec_metadata r = metadata d
            ∧ source (rec_metadata r) = path_str g)
  ∧ (∀ f,
       total_len (loaded_or (PyPDFLoader_load (path_str f)) []) = 0 →
       total_len (loaded_or (PDFMinerLoader_load (path_str f)) []) = 0 →
       (extract_pages PyPDFLoader_load PDFMinerLoader_load f).2 = []
       ∧ (∀ c, c ∈ chunks scandir PyPDFLoader_load PDFMinerLoader_load
                     split_documents REPO_ROOT →
               source (metadata c) ≠ path_str f)
       ∧ (∀ r, r ∈ persisted_by_run scandir PyPDFLoader_load
                     PDFMinerLoader_load split_documents embed library_dirs REPO_ROOT w →
               source (rec_metadata r) ≠ path_str f)).
Proof.
  assert (Horigin : ∀ c,
    c ∈ chunks scandir PyPDFLoader_load PDFMinerLoader_load split_documents
          REPO_ROOT →
    ∃ g d, g ∈ pdf_files scandir REPO_ROOT
           ∧ d ∈ (extract_pages PyPDFLoader_load PDFMinerLoader_load g).2
           ∧ total_len
               (extract_pages PyPDFLoader_load PDFMinerLoader_load g).2 ≠ 0
           ∧ metadata c = metadata d
           ∧ source (metadata c) = path_str g).
  { intros c (g & d & Hg & Hd & Hmeta)%chunk_origin.
    exists g, d. destruct (extract_pages_origin _ _ _ _ Hd) as [Hlen Hfrom].
    repeat split; try done. rewrite Hmeta.
    destruct Hfrom as ([|] & ps & Hload & Hin); eauto. }
  assert (Hchunks : ∀ f c,
    total_len (loaded_or (PyPDFLoader_load (path_str f)) []) = 0 →
    total_len (loaded_or (PDFMinerLoader_load (path_str f)) []) = 0 →
    c ∈ chunks scandir PyPDFLoader_load PDFMinerLoader_load split_documents
          REPO_ROOT →
    source (metadata c) ≠ path_str f).
  { intros f c H1 H2 (g & d & _ & Hd & _ & _ & Hsrc)%Horigin Hf.
    rewrite Hsrc in Hf. rewrite <-Hf in H1, H2.
    rewrite (extract_pages_nothing _ _ g H1 H2) in Hd.
    by apply not_elem_of_nil in Hd. }
  split.
  - intros r (c & Hc & ->)%persisted_by_run_chunk. by apply Horigin.
  - intros f H1 H2. split; [by apply extract_pages_nothing|].
    split; [by eauto|].
    intros r (c & Hc & ->)%persisted_by_run_chunk. simpl. by eapply Hchunks.
Qed.

End Provenance.

(** ** The theorems on concrete inputs *)

Lemma Examples_pypdf_source (file : string) (ps : list Document) (d : Document) :
  Examples.pypdf file = Loaded ps → d ∈ ps → source (metadata d) = file.
Proof.
  unfold Examples.pypdf. repeat case_decide; intros [= <-];
    rewrite !elem_of_cons, elem_of_nil; by intros [->|[->|[]]].
Qed.

Lemma Examples_pdfminer_source (file : string) (ps : list Document)
    (d : Document) :
  Examples.pdfminer file = Loaded ps → d ∈ ps → source (metadata d) = file.
Proof.
  unfold Examples.pdfminer. case_decide; intros [= <-].
  rewrite elem_of_cons, elem_of_nil. by intros [->|[]].
Qed.

Example strip_both_ends : strip "  a b  " = "a b".
Proof. reflexivity. Qed.

Example sorted_three :
  pdf_files Examples.scandir_three Examples.root
    = [Examples.a_pdf; Examples.b_pdf; Examples.c_pdf].
Proof. by vm_compute. Qed.

(** The loop over the three PDFs: [a.pdf] is skipped, the blank pages of
    [b.pdf] are kept, [c.pdf] is read by PyPDF alone. *)
Example extend_all_three :
  (extend_all Examples.pypdf Examples.pdfminer
     (pdf_files Examples.scandir_three Examples.root) []).1 =
    [EvLoad PyPDF "/srv/GuidelineMonkey/documents/local_ocr/a.pdf";
     EvPrint "[warn] PyPDF failed for a.pdf: EOF marker not found";
     EvLoad PDFMiner "/srv/GuidelineMonkey/documents/local_ocr/a.pdf";
     EvPrint "[skip] a.pdf: no extractable text (likely scanned).";
     EvLoad PyPDF "/srv/GuidelineMonkey/documents/local_ocr/b.pdf";
     EvLoad PDFMiner "/srv/GuidelineMonkey/documents/local_ocr/b.pdf";
     EvPrint "[warn] PDFMiner failed for b.pdf: No /Root object";
     EvPrint "[ok] b.pdf: 2 pages, 1 chars.";
     EvLoad PyPDF "/srv/GuidelineMonkey/documents/local_ocr/c.pdf";
     EvPrint "[ok] c.pdf: 2 pages, 23 chars."].
Proof. by vm_compute. Qed.

Example main_three_result :
  (main Examples.scandir_three Examples.pypdf Examples.pdfminer
     LangChain.split_documents Examples.embed Examples.library_dirs Examples.root
     Examples.fresh).2 = Return ()
  ∧ map rec_text
      (persisted_by_run Examples.scandir_three Examples.pypdf
         Examples.pdfminer LangChain.split_documents Examples.embed Examples.library_dirs
         Examples.root Examples.fresh)
    = ["Wash hands."; "Wear gloves."].
Proof. split; by vm_compute. Qed.

(** Windows of ten characters that overlap by three. *)
Example split_text_windows :
  LangChain.split_text 10 3 "hello world foo bar baz qux"
    = ["hello"; "world foo"; "bar baz"; "qux"]
  ∧ LangChain.split_text 5 2 "abcdefghijklmnop"
    = ["abcde"; "defgh"; "ghijk"; "jklmn"; "mnop"]
  ∧ LangChain.split_text 1000 150 "  " = [].
Proof. repeat split; by vm_compute. Qed.

(** A directory holding [notes.txt] and [pdf] has no entry matching
    [*.pdf]: the run stops without any loader call. *)
Lemma no_pdfs_exit_before_extraction_witness :
  filter (λ n, endswith n ".pdf")
    (Examples.scandir_no_pdf (PDF_DIR Examples.root)) = []
  ∧ load_calls
      (main Examples.scandir_no_pdf Examples.pypdf Examples.pdfminer
         LangChain.split_documents Examples.embed Examples.library_dirs Examples.root
         Examples.fresh).1.1 = [].
Proof.
  split; [reflexivity|].
  apply (no_pdfs_exit_before_extraction Examples.scandir_no_pdf Examples.pypdf
           Examples.pdfminer LangChain.split_documents Examples.embed Examples.library_dirs
           Examples.root Examples.fresh).
  reflexivity.
Defined.


(** PyPDF raises on [a.pdf], the first of three files: the warning is
    printed and [c.pdf], the last file, is still attempted. *)
Lemma extraction_failure_is_local_witness :
  pdf_files Examples.scandir_three Examples.root
    = [] ++ Examples.a_pdf :: [Examples.b_pdf; Examples.c_pdf]
  ∧ Examples.pypdf (path_str Examples.a_pdf) = Raised "EOF marker not found"
  ∧ EvPrint "[warn] PyPDF failed for a.pdf: EOF marker not found"
      ∈ (main Examples.scandir_three Examples.pypdf Examples.pdfminer
           LangChain.split_documents Examples.embed Examples.library_dirs Examples.root
           Examples.fresh).1.1
  ∧ (PyPDF, path_str Examples.c_pdf)
      ∈ load_calls
          (main Examples.scandir_three Examples.pypdf Examples.pdfminer
             LangChain.split_documents Examples.embed Examples.library_dirs Examples.root
             Examples.fresh).1.1.
Proof.
  split; [by vm_compute|]. split; [reflexivity|].
  destruct (extraction_failure_is_local Examples.scandir_three Examples.pypdf
              Examples.pdfminer LangChain.split_documents Examples.embed Examples.library_dirs
              Examples.root Examples.fresh
              [] [Examples.b_pdf; Examples.c_pdf] Examples.a_pdf PyPDF
              "EOF marker not found")
    as (Hwarn & _ & Hnext & _); [by vm_compute | reflexivity |].
  split; [exact Hwarn|]. apply Hnext.
  apply list_elem_of_further, list_elem_of_here.
Defined.

(** The same three PDFs enumerated in two orders give the same chunks. *)
Lemma chunks_deterministic_witness :
  Examples.scandir_three (PDF_DIR Examples.root)
    ≡ₚ Examples.scandir_three' (PDF_DIR Examples.root)
  ∧ chunks Examples.scandir_three Examples.pypdf Examples.pdfminer
      LangChain.split_documents Examples.root
    = chunks Examples.scandir_three' Examples.pypdf Examples.pdfminer
        LangChain.split_documents Examples.root.
Proof.
  assert (Hperm : Examples.scandir_three (PDF_DIR Examples.root)
                    ≡ₚ Examples.scandir_three' (PDF_DIR Examples.root)).
  { unfold Examples.scandir_three, Examples.scandir_three'.
    solve_Permutation. }
  split; [exact Hperm|].
  by apply (chunks_deterministic Examples.scandir_three Examples.scandir_three'
              Examples.pypdf Examples.pdfminer LangChain.split_documents
              Examples.root).
Defined.

(** [b.pdf] is read by PyPDF as blank pages holding one space, and
    PDFMiner fails on it: the fallback was tried and PyPDF's pages are
    returned. *)
Lemma extract_pages_empty_iff_raw_zero_witness :
  total_stripped_len (primary_pages Examples.pypdf Examples.b_pdf) = 0
  ∧ total_len (primary_pages Examples.pypdf Examples.b_pdf) ≠ 0
  ∧ total_stripped_len
      (final_pages Examples.pypdf Examples.pdfminer Examples.b_pdf) = 0
  ∧ total_len
      (final_pages Examples.pypdf Examples.pdfminer Examples.b_pdf) ≠ 0
  ∧ (extract_pages Examples.pypdf Examples.pdfminer Examples.b_pdf).2 ≠ []
  ∧ (extract_pages Examples.pypdf Examples.pdfminer Examples.b_pdf).2
    = primary_pages Examples.pypdf Examples.b_pdf.
Proof.
  destruct (extract_pages_empty_iff_raw_zero Examples.pypdf Examples.pdfminer
              Examples.b_pdf) as (_ & _ & Hfinal & Hprimary).
  split; [reflexivity|]. split; [by vm_compute|].
  split; [reflexivity|]. split; [by vm_compute|]. split.
  - apply Hfinal; [reflexivity | by vm_compute].
  - destruct Hprimary as [_ ->]; [reflexivity | by vm_compute | reflexivity].
Defined.

(** C9 (as stated) fails: a file whose extracted text is whitespace-only
    is not always treated as extracted.  PyPDF reads the pages [" "] and
    [""] from [b.pdf] (one character, none after stripping), the fallback
    is tried, PDFMiner loads one page without any character, and the file
    is skipped. *)
Lemma whitespace_only_text_can_be_skipped :
  ¬ ∀ (PyPDFLoader_load PDFMinerLoader_load : string → LoadResult)
      (path : Path),
      total_stripped_len (primary_pages PyPDFLoader_load path) = 0 →
      total_len (primary_pages PyPDFLoader_load path) ≠ 0 →
      (PDFMiner, path_str path)
        ∈ load_calls
            (extract_pages PyPDFLoader_load PDFMinerLoader_load path).1
      ∧ (extract_pages PyPDFLoader_load PDFMinerLoader_load path).2 ≠ [].
Proof.
  intros Hclaim.
  destruct (Hclaim Examples.pypdf MoreExamples.pdfminer_blank Examples.b_pdf)
    as [_ Hkept]; [reflexivity | by vm_compute |].
  by apply Hkept.
Qed.

(** Neither extractor gets a character from [a.pdf]: no record persisted by
    the run on the three PDFs has it as its source. *)
Lemma persisted_chunks_have_text_witness :
  total_len (loaded_or (Examples.pypdf (path_str Examples.a_pdf)) []) = 0
  ∧ total_len (loaded_or (Examples.pdfminer (path_str Examples.a_pdf)) []) = 0
  ∧ ∀ r, r ∈ persisted_by_run Examples.scandir_three Examples.pypdf
                 Examples.pdfminer LangChain.split_documents Examples.embed Examples.library_dirs
                 Examples.root Examples.fresh →
         source (rec_metadata r) ≠ path_str Examples.a_pdf.
Proof.
  split; [reflexivity|]. split; [reflexivity|].
  apply (persisted_chunks_have_text Examples.scandir_three Examples.pypdf
           Examples.pdfminer LangChain.split_documents Examples.embed Examples.library_dirs
           Examples.root Examples_pypdf_source Examples_pdfminer_source
           LangChain_split_documents_metadata Examples.fresh);
    reflexivity.
Defined.

(** * Further properties of the script *)

(** ** Texts *)

Lemma substring_all (s : string) : String.substring 0 (String.length s) s = s.
Proof. induction s as [|c s IH]; simpl; by rewrite ?IH. Qed.

Lemma substring_skip_app (pre suf : string) :
  String.substring (String.length pre) (String.length suf) (pre +:+ suf) = suf.
Proof. induction pre as [|c pre IH]; simpl; [apply substring_all|done]. Qed.

Lemma substring_split (s : string) (i : nat) :
  i ≤ String.length s →
  String.substring 0 i s +:+ String.substring i (String.length s - i) s = s.
Proof.
  revert i. induction s as [|c s IH]; intros [|i] Hi; simpl in *; try lia.
  - done.
  - by rewrite substring_all.
  - change (String c (String.substring 0 i s
      +:+ String.substring i (String.length s - i) s) = String c s).
    by rewrite IH by lia.
Qed.

Lemma string_length_app (s1 s2 : string) :
  String.length (s1 +:+ s2) = String.length s1 + String.length s2.
Proof. induction s1 as [|c s1 IH]; simpl; by rewrite ?IH. Qed.

(** [endswith] decides that the text is some text followed by the suffix. *)
Lemma endswith_spec (s suffix : string) :
  endswith s suffix = true ↔ ∃ stem, s = stem +:+ suffix.
Proof.
  unfold endswith. rewrite andb_true_iff, Nat.leb_le, bool_decide_eq_true.
  split.
  - intros [Hle Hsub].
    exists (String.substring 0 (String.length s - String.length suffix) s).
    pose proof (substring_split s (String.length s - String.length suffix))
      as Hsplit.
    replace (String.length s - (String.length s - String.length suffix))
      with (String.length suffix) in Hsplit by lia.
    rewrite Hsub in Hsplit. symmetry. apply Hsplit. lia.
  - intros [stem ->]. rewrite string_length_app. split; [lia|].
    replace (String.length stem + String.length suffix - String.length suffix)
      with (String.length stem) by lia.
    apply substring_skip_app.
Qed.

Lemma length_lstrip_le (s : string) :
  String.length (lstrip s) ≤ String.length s.
Proof.
  induction s as [|c s IH]; simpl; [done|].
  destruct (isspace c); simpl; lia.
Qed.

Lemma length_rstrip_le (s : string) :
  String.length (rstrip s) ≤ String.length s.
Proof.
  induction s as [|c s IH]; simpl; [done|].
  destruct (rstrip s); [destruct (isspace c)|]; simpl in *; lia.
Qed.

(** Stripping never adds characters. *)
Lemma length_strip_le (s : string) :
  String.length (strip s) ≤ String.length s.
Proof.
  unfold strip. etrans; [apply length_rstrip_le | apply length_lstrip_le].
Qed.

Lemma lstrip_all_space (s : string) : all_space s = true → lstrip s = "".
Proof.
  induction s as [|c s IH]; simpl; [done|].
  intros [-> Hs]%andb_true_iff. by apply IH.
Qed.

Lemma lstrip_empty_all_space (s : string) : lstrip s = "" → all_space s = true.
Proof.
  induction s as [|c s IH]; simpl; [done|].
  destruct (isspace c); [apply IH | done].
Qed.

Lemma rstrip_empty_head (c : ascii) (s : string) :
  isspace c = false → rstrip (String c s) ≠ "".
Proof. intros Hc. simpl. destruct (rstrip s); by rewrite ?Hc. Qed.

(** A text strips to the empty text exactly when it is whitespace only. *)
Lemma strip_empty_iff (s : string) : strip s = "" ↔ all_space s = true.
Proof.
  unfold strip. split.
  - intros Hs. apply lstrip_empty_all_space.
    destruct (lstrip s) as [|c r] eqn:Hl; [done|].
    assert (Hc : isspace c = false).
    { clear Hs. induction s as [|a s IH]; simpl in Hl; [done|].
      destruct (isspace a) eqn:Ha; [by apply IH | congruence]. }
    by destruct (rstrip_empty_head c r Hc).
  - intros Hs. by rewrite lstrip_all_space.
Qed.

Lemma total_stripped_len_le (pages : list Document) :
  total_stripped_len pages ≤ total_len pages.
Proof.
  unfold total_stripped_len, total_len.
  induction pages as [|d pages IH]; simpl; [done|].
  pose proof (length_strip_le (page_content d)). lia.
Qed.

Lemma string_app_assoc (s1 s2 s3 : string) :
  (s1 +:+ s2) +:+ s3 = s1 +:+ s2 +:+ s3.
Proof.
  induction s1 as [|c s1 IH]; [done|].
  change (String c ((s1 +:+ s2) +:+ s3) = String c (s1 +:+ s2 +:+ s3)).
  by f_equal.
Qed.

(** ** Paths *)

Lemma path_name_div (dir : Path) (name : string) : path_name (dir // name) = name.
Proof. apply last_last. Qed.

Lemma concat_empty_snoc (l : list string) (x : string) :
  String.concat "" (l ++ [x]) = String.concat "" l +:+ x.
Proof.
  induction l as [|a l IH]; [done|].
  destruct l as [|b l]; [done|].
  change (a +:+ "" +:+ String.concat "" ((b :: l) ++ [x])
          = (a +:+ "" +:+ String.concat "" (b :: l)) +:+ x).
  rewrite IH. simpl. by rewrite string_app_assoc.
Qed.

(** [str(dir / name)] is the directory's components followed by ["/"] and
    the name. *)
Lemma path_str_div (dir : Path) (name : string) :
  path_str (dir // name) =
    String.concat "" (map (String.append "/") dir) +:+ "/" +:+ name.
Proof.
  unfold path_div, path_str.
  destruct (dir ++ [name]) eqn:Hne; [by destruct dir|].
  rewrite <-Hne, map_app. apply concat_empty_snoc.
Qed.

Lemma path_str_div_inj (dir : Path) (n1 n2 : string) :
  path_str (dir // n1) = path_str (dir // n2) → n1 = n2.
Proof.
  rewrite !path_str_div. intros H.
  apply (inj (String.append _)) in H. by apply (inj (String.append _)) in H.
Qed.

(** [mkdir(parents=True)] walks through exactly the prefixes of the path. *)
Lemma path_self_and_parents_prefix (p q : Path) :
  q ∈ path_self_and_parents p ↔ q `prefix_of` p.
Proof.
  revert q. induction p as [|c p IH]; intros q; simpl.
  - rewrite list_elem_of_singleton. split; [by intros ->|].
    apply prefix_nil_inv.
  - rewrite elem_of_app, list_elem_of_fmap, list_elem_of_singleton. split.
    + intros [(q' & -> & Hq') | ->]; [|apply prefix_nil].
      by apply prefix_cons, IH.
    + destruct q as [|c' q]; [by right|]. intros Hpre. left.
      pose proof (prefix_cons_inv_1 _ _ _ _ Hpre) as ->.
      exists q. split; [done|]. apply IH. by eapply prefix_cons_inv_2.
Qed.

(** The input directory is not on the way to the output directory. *)
Lemma PDF_DIR_not_above_PERSIST_DIR (REPO_ROOT d : Path) :
  PDF_DIR REPO_ROOT `prefix_of` d → ¬ d `prefix_of` PERSIST_DIR REPO_ROOT.
Proof.
  intros H1 H2. assert (H : PDF_DIR REPO_ROOT `prefix_of` PERSIST_DIR REPO_ROOT)
    by (by etrans).
  unfold PDF_DIR, PERSIST_DIR, path_div in H. rewrite <-!app_assoc in H.
  apply prefix_app_inv in H. simpl in H.
  by apply prefix_cons_inv_1 in H.
Qed.

(** ** More on [extract_pages] *)

Lemma calls_of_app (x : Extractor) (t1 t2 : list Event) :
  calls_of x (t1 ++ t2) = calls_of x t1 ++ calls_of x t2.
Proof. apply omap_app. Qed.

Lemma calls_of_load_calls (x : Extractor) (t : list Event) :
  calls_of x t = map snd (filter (λ c, c.1 = x) (load_calls t)).
Proof.
  induction t as [|e t IH]; [done|].
  destruct e as [| | |y file| | |]; simpl; try done.
  unfold calls_of, load_calls in *. simpl.
  rewrite filter_cons. simpl. destruct (decide (y = x)); simpl; by rewrite IH.
Qed.

Section MoreExtractionFacts.

Variable PyPDFLoader_load : string → LoadResult.
Variable PDFMinerLoader_load : string → LoadResult.

Lemma try_load_calls_of (x y : Extractor) load path pages :
  calls_of y (try_load x load path pages).1 =
    if decide (x = y) then [path_str path] else [].
Proof.
  unfold try_load, calls_of. destruct (load _); simpl; by destruct (decide _).
Qed.

Lemma try_load_no_store x load path pages :
  Forall (λ e, writes_store e = false) (try_load x load path pages).1.
Proof. unfold try_load. destruct (load _); simpl; repeat constructor. Qed.

Lemma try_load_no_warning x load path pages ps :
  load (path_str path) = Loaded ps →
  Forall (λ e, is_warning e = false) (try_load x load path pages).1.
Proof. intros H. unfold try_load. rewrite H. by repeat constructor. Qed.

(** X1: the pages [extract_pages] returns for a file are never a mixture:
    the result is empty, or it is the complete page list PyPDF loaded, or
    it is the complete page list PDFMiner loaded. *)
Theorem extract_pages_single_source (path : Path) :
  (extract_pages PyPDFLoader_load PDFMinerLoader_load path).2 = []
  ∨ PyPDFLoader_load (path_str path) =
      Loaded (extract_pages PyPDFLoader_load PDFMinerLoader_load path).2
  ∨ PDFMinerLoader_load (path_str path) =
      Loaded (extract_pages PyPDFLoader_load PDFMinerLoader_load path).2.
Proof.
  rewrite extract_pages_result.
  destruct (decide (total_len _ = 0)) as [|Hne]; [by left|]. right.
  revert Hne. unfold final_pages, primary_pages.
  destruct (PyPDFLoader_load (path_str path)) as [ps|e];
    destruct (decide _) as [Hs|Hs]; simpl; try (by left); try done;
    destruct (PDFMinerLoader_load (path_str path)); simpl; auto; done.
Qed.

(** X2: when PyPDF reads a character that is not whitespace, PDFMiner
    plays no part: with any other fallback loader [extract_pages] gives the
    same trace and the same pages, which are PyPDF's. *)
Theorem extract_pages_ignores_fallback
    (PDFMinerLoader_load' : string → LoadResult) (path : Path) :
  total_stripped_len (primary_pages PyPDFLoader_load path) ≠ 0 →
  extract_pages PyPDFLoader_load PDFMinerLoader_load path
    = extract_pages PyPDFLoader_load PDFMinerLoader_load' path
  ∧ PyPDFLoader_load (path_str path) =
      Loaded (extract_pages PyPDFLoader_load PDFMinerLoader_load path).2.
Proof.
  intros Hs. rewrite !extract_pages_eq. unfold final_pages.
  destruct (decide (total_stripped_len (primary_pages PyPDFLoader_load path)
                    = 0)) as [|_]; [done|].
  split; [done|]. simpl.
  pose proof (total_stripped_len_le (primary_pages PyPDFLoader_load path)).
  destruct (decide (total_len (primary_pages PyPDFLoader_load path) = 0));
    [lia|].
  unfold primary_pages in *.
  by destruct (PyPDFLoader_load (path_str path)).
Qed.

(** X3: once the fallback is tried, its outcome alone decides: pages that
    PDFMiner loads replace PyPDF's (so whitespace-only pages from PyPDF are
    dropped, and the file is skipped when PDFMiner loaded no character),
    while a PDFMiner failure keeps PyPDF's pages if they hold any
    character. *)
Theorem fallback_outcome_decides (path : Path) :
  total_stripped_len (primary_pages PyPDFLoader_load path) = 0 →
  (extract_pages PyPDFLoader_load PDFMinerLoader_load path).2 =
    match PDFMinerLoader_load (path_str path) with
    | Loaded ps => if decide (total_len ps = 0) then [] else ps
    | Raised _ =>
        if decide (total_len (primary_pages PyPDFLoader_load path) = 0)
        then [] else primary_pages PyPDFLoader_load path
    end.
Proof.
  intros Hs. rewrite extract_pages_result. unfold final_pages.
  destruct (decide (total_stripped_len (primary_pages PyPDFLoader_load path)
                    = 0)); [|done].
  by destruct (PDFMinerLoader_load (path_str path)).
Qed.

(** No page is returned only if PyPDF read nothing but whitespace. *)
Lemma extract_pages_nil_stripped (path : Path) :
  (extract_pages PyPDFLoader_load PDFMinerLoader_load path).2 = [] →
  total_stripped_len (primary_pages PyPDFLoader_load path) = 0.
Proof.
  rewrite extract_pages_result. intros Hnil.
  assert (Hzero : total_len
    (final_pages PyPDFLoader_load PDFMinerLoader_load path) = 0).
  { destruct (decide (total_len _ = 0)) as [|Hne]; [done|].
    by rewrite Hnil in Hne. }
  unfold final_pages in Hzero.
  destruct (decide (total_stripped_len (primary_pages PyPDFLoader_load path)
                    = 0)); [done|].
  pose proof (total_stripped_len_le (primary_pages PyPDFLoader_load path)).
  lia.
Qed.

(** X4: a file is skipped only after both extractors were tried on it:
    whenever [extract_pages] returns no page, its loader calls are PyPDF
    and then PDFMiner. *)
Theorem skipped_after_both_extractors (path : Path) :
  (extract_pages PyPDFLoader_load PDFMinerLoader_load path).2 = [] →
  load_calls (extract_pages PyPDFLoader_load PDFMinerLoader_load path).1
    = [(PyPDF, path_str path); (PDFMiner, path_str path)].
Proof.
  rewrite extract_pages_result, extract_pages_calls. intros Hnil.
  assert (Hzero : total_len
    (final_pages PyPDFLoader_load PDFMinerLoader_load path) = 0).
  { destruct (decide (total_len _ = 0)) as [|Hne]; [done|].
    by rewrite Hnil in Hne. }
  destruct (decide (total_stripped_len _ = 0)) as [|Hs]; [done|].
  unfold final_pages in Hzero.
  destruct (decide (total_stripped_len (primary_pages PyPDFLoader_load path)
                    = 0)); [done|].
  pose proof (total_stripped_len_le (primary_pages PyPDFLoader_load path)).
  lia.
Qed.

End MoreExtractionFacts.

Lemma path_str_PDF_DIR_div (REPO_ROOT : Path) (name : string) :
  path_str (PDF_DIR REPO_ROOT // name)
    = path_str (PDF_DIR REPO_ROOT) +:+ "/" +:+ name.
Proof.
  rewrite path_str_div. f_equal.
  unfold PDF_DIR, path_div, path_str.
  destruct ((REPO_ROOT ++ ["documents"]) ++ ["local_ocr"]) eqn:Hne; [|done].
  by destruct REPO_ROOT.
Qed.

Lemma total_len_app (l1 l2 : list Document) :
  total_len (l1 ++ l2) = total_len l1 + total_len l2.
Proof.
  unfold total_len. induction l1 as [|d l1 IH]; simpl; [done|]. lia.
Qed.

Lemma prologue_no_warning (REPO_ROOT : Path) :
  Forall (λ e, is_warning e = false) (prologue REPO_ROOT).
Proof. unfold prologue. by repeat constructor. Qed.

(** ** More on the loop and the run *)

Section MorePipelineFacts.

Context {Vec : Type}.
Variable scandir : Path → list string.
Variable PyPDFLoader_load : string → LoadResult.
Variable PDFMinerLoader_load : string → LoadResult.
Variable split_documents : nat → nat → list Document → list Document.
Variable embed : string → Vec.
Variable library_dirs : gset Path.
Variable REPO_ROOT : Path.

#[local] Abbreviation loader x :=
  (match x with PyPDF => PyPDFLoader_load | PDFMiner => PDFMinerLoader_load end).
#[local] Abbreviation extract_pages :=
  (extract_pages PyPDFLoader_load PDFMinerLoader_load).
#[local] Abbreviation extend_all :=
  (extend_all PyPDFLoader_load PDFMinerLoader_load).
#[local] Abbreviation primary_pages := (primary_pages PyPDFLoader_load).
#[local] Abbreviation final_pages :=
  (final_pages PyPDFLoader_load PDFMinerLoader_load).
#[local] Abbreviation PDF_DIR := (PDF_DIR REPO_ROOT).
#[local] Abbreviation PERSIST_DIR := (PERSIST_DIR REPO_ROOT).
#[local] Abbreviation pdf_files := (pdf_files scandir REPO_ROOT).
#[local] Abbreviation all_docs :=
  (all_docs scandir PyPDFLoader_load PDFMinerLoader_load REPO_ROOT).
#[local] Abbreviation chunks :=
  (chunks scandir PyPDFLoader_load PDFMinerLoader_load split_documents
     REPO_ROOT).
#[local] Abbreviation main :=
  (main scandir PyPDFLoader_load PDFMinerLoader_load split_documents embed library_dirs
     REPO_ROOT).
#[local] Abbreviation persisted_by_run :=
  (persisted_by_run scandir PyPDFLoader_load PDFMinerLoader_load
     split_documents embed library_dirs REPO_ROOT).
#[local] Abbreviation prologue := (prologue REPO_ROOT).
#[local] Abbreviation after_mkdir := (after_mkdir REPO_ROOT).

(** What a file logs: loader calls and printed lines, no store event. *)
Lemma extract_pages_no_store (path : Path) :
  Forall (λ e, writes_store e = false) (extract_pages path).1.
Proof.
  rewrite extract_pages_eq. simpl.
  repeat apply Forall_app_2; try apply try_load_no_store.
  - destruct (decide _); [apply try_load_no_store | constructor].
  - by repeat constructor.
Qed.

Lemma extract_pages_calls_of (x : Extractor) (path : Path) :
  calls_of x (extract_pages path).1 =
    match x with
    | PyPDF => [path_str path]
    | PDFMiner =>
        if decide (total_stripped_len (primary_pages path) = 0)
        then [path_str path] else []
    end.
Proof.
  rewrite extract_pages_eq. simpl. rewrite !calls_of_app, try_load_calls_of.
  destruct (decide (total_stripped_len _ = 0));
    rewrite ?try_load_calls_of; by destruct x.
Qed.

(** A warning line in what a file logs reports a loader that raised. *)
Lemma extract_pages_warning (path : Path) (e : Event) :
  e ∈ (extract_pages path).1 → is_warning e = true →
  ∃ x err, loader x (path_str path) = Raised err
           ∧ e = EvPrint ("[warn] " +:+ extractor_name x +:+ " failed for "
                          +:+ path_name path +:+ ": " +:+ err).
Proof.
  rewrite extract_pages_eq. simpl. rewrite !elem_of_app.
  assert (Htry : ∀ x pages, e ∈ (try_load x (loader x) path pages).1 →
    is_warning e = true →
    ∃ err, loader x (path_str path) = Raised err
           ∧ e = EvPrint ("[warn] " +:+ extractor_name x +:+ " failed for "
                          +:+ path_name path +:+ ": " +:+ err)).
  { intros x pages. unfold try_load.
    destruct (loader x (path_str path)) as [ps|err]; simpl.
    - by intros ->%list_elem_of_singleton.
    - rewrite elem_of_cons, list_elem_of_singleton. intros [->| ->]; [done|].
      by exists err. }
  intros [He|[He|He]] Hw.
  - destruct (Htry PyPDF _ He Hw) as (err & ? & ?). by exists PyPDF, err.
  - destruct (decide _); [|by apply elem_of_nil in He].
    destruct (Htry PDFMiner _ He Hw) as (err & ? & ?). by exists PDFMiner, err.
  - apply list_elem_of_singleton in He as ->.
    by destruct (decide _).
Qed.

Lemma elem_of_extend_all_trace (files : list Path) (e : Event) :
  e ∈ (extend_all files []).1 ↔ ∃ f, f ∈ files ∧ e ∈ (extract_pages f).1.
Proof.
  rewrite extend_all_eq. simpl. rewrite list_elem_of_In, in_concat.
  split.
  - intros (t & Ht & He). apply list_elem_of_In, list_elem_of_fmap in Ht
      as (f & -> & Hf). apply list_elem_of_In in He. by exists f.
  - intros (f & Hf & He). exists (extract_pages f).1.
    rewrite <-!list_elem_of_In. split; [|done].
    by apply (list_elem_of_fmap_2 (λ f, (extract_pages f).1)).
Qed.

(** The trace of a run: the three opening events, what the loop logs, and
    a tail without loader calls and warnings that touches the store only
    when the run reaches its last line. *)
Lemma main_trace_shape (w : World Vec) :
  ∃ tail, (main w).1.1 = prologue ++ (extend_all pdf_files []).1 ++ tail
          ∧ load_calls tail = []
          ∧ (∀ x, calls_of x tail = [])
          ∧ Forall (λ e, is_warning e = false) tail
          ∧ (exit_status (main w).2 ≠ 0 →
             Forall (λ e, writes_store e = false) tail).
Proof.
  rewrite main_eq.
  destruct pdf_files as [|f files]; [|destruct all_docs; [|destruct chunks]];
    cbn [fst snd exit_status].
  - exists []. by rewrite !app_nil_r.
  - exists []. by rewrite !app_nil_r.
  - exists [EvSplit chunk_size chunk_overlap]. repeat split; try done.
    + by repeat constructor.
    + intros _. by repeat constructor.
  - eexists. split; [done|]. repeat split; try done. by repeat constructor.
Qed.

(** Every file of [pdf_files] is an entry of the input directory. *)
Lemma pdf_files_form :
  Forall (λ p, path_name p ∈ scandir PDF_DIR
               ∧ p = PDF_DIR // path_name p
               ∧ path_str p = path_str PDF_DIR +:+ "/" +:+ path_name p)
    pdf_files.
Proof.
  apply Forall_forall. intros p.
  rewrite pdf_files_eq, sorted_Permutation. unfold glob_paths.
  intros (n & -> & [Hn Hin]%list_elem_of_filter)%list_elem_of_fmap.
  by rewrite path_name_div, path_str_PDF_DIR_div.
Qed.

(** X5: [pdf_files] is in ascending path order and holds exactly the
    entries of the input directory whose name ends with [.pdf], as paths
    below [PDF_DIR]; for each of them [path.name] is the entry's name and
    [str(path)] is [str(PDF_DIR)], a slash and that name. *)
Theorem pdf_files_sorted_matching :
  StronglySorted path_le pdf_files
  ∧ (∀ p, p ∈ pdf_files ↔
          ∃ stem, stem +:+ ".pdf" ∈ scandir PDF_DIR
                  ∧ p = PDF_DIR // (stem +:+ ".pdf"))
  ∧ Forall (λ p, path_name p ∈ scandir PDF_DIR
                 ∧ p = PDF_DIR // path_name p
                 ∧ path_str p = path_str PDF_DIR +:+ "/" +:+ path_name p)
      pdf_files.
Proof.
  assert (Hmem : ∀ p, p ∈ pdf_files ↔
    ∃ stem, stem +:+ ".pdf" ∈ scandir PDF_DIR
            ∧ p = PDF_DIR // (stem +:+ ".pdf")).
  { intros p. rewrite pdf_files_eq, sorted_Permutation. unfold glob_paths.
    rewrite list_elem_of_fmap. split.
    - intros (n & -> & [Hn Hin]%list_elem_of_filter).
      apply Is_true_true, endswith_spec in Hn as [stem ->]. by exists stem.
    - intros (stem & Hin & ->). exists (stem +:+ ".pdf"). split; [done|].
      apply list_elem_of_filter. split; [|done].
      apply Is_true_true, endswith_spec. by exists stem. }
  split; [|split; [exact Hmem|]].
  - rewrite pdf_files_eq. apply Sorted_StronglySorted; [apply _|].
    apply sorted_Sorted.
  - apply Forall_forall. intros p (stem & Hin & ->)%Hmem.
    by rewrite path_name_div, path_str_PDF_DIR_div.
Qed.

Lemma extend_all_calls_of (x : Extractor) (files : list Path) :
  calls_of x (extend_all files []).1 =
    map path_str
      (match x with
       | PyPDF => files
       | PDFMiner =>
           filter (λ f, total_stripped_len (primary_pages f) = 0) files
       end).
Proof.
  rewrite extend_all_eq. simpl.
  induction files as [|f files IH]; [by destruct x|].
  simpl. rewrite calls_of_app, IH, extract_pages_calls_of.
  destruct x; [done|]. rewrite filter_cons.
  by destruct (decide (total_stripped_len _ = 0)).
Qed.

Lemma main_calls_of (x : Extractor) (w : World Vec) :
  calls_of x (main w).1.1 = calls_of x (extend_all pdf_files []).1.
Proof.
  destruct (main_trace_shape w) as (tail & -> & _ & Htail & _).
  by rewrite !calls_of_app, Htail, app_nil_r.
Qed.

(** X6: when the entries of the input directory are distinct, every
    matching file is handed to PyPDF exactly once and to PDFMiner at most
    once: the PyPDF calls of a run are the path strings of [pdf_files] in
    order, the PDFMiner calls are those of the files whose PyPDF result had
    no character other than whitespace, and neither list repeats a file. *)
Theorem each_pdf_attempted_once (w : World Vec) :
  NoDup (scandir PDF_DIR) →
  calls_of PyPDF (main w).1.1 = map path_str pdf_files
  ∧ calls_of PDFMiner (main w).1.1 =
      map path_str
        (filter (λ f, total_stripped_len (primary_pages f) = 0) pdf_files)
  ∧ NoDup (calls_of PyPDF (main w).1.1)
  ∧ NoDup (calls_of PDFMiner (main w).1.1).
Proof.
  intros Hnodup. rewrite !main_calls_of, !extend_all_calls_of.
  assert (Hfiles : NoDup pdf_files).
  { rewrite pdf_files_eq, sorted_Permutation. unfold glob_paths.
    apply NoDup_fmap_2_strong; [|by apply NoDup_filter].
    intros n1 n2 _ _ Heq. by apply app_inv_head in Heq as [= ->]. }
  assert (Hinj : ∀ p q, p ∈ pdf_files → q ∈ pdf_files →
                        path_str p = path_str q → p = q).
  { pose proof pdf_files_form as Hform. intros p q Hp Hq Heq.
    rewrite Forall_forall in Hform.
    destruct (Hform p Hp) as (_ & Hp' & _).
    destruct (Hform q Hq) as (_ & Hq' & _).
    rewrite Hp', Hq' in Heq. apply path_str_div_inj in Heq.
    rewrite Hp', Hq'. by f_equal. }
  repeat split; try done.
  - by apply NoDup_fmap_2_strong.
  - apply NoDup_fmap_2_strong; [|by apply NoDup_filter].
    intros p q [_ Hp]%list_elem_of_filter [_ Hq]%list_elem_of_filter.
    by apply Hinj.
Qed.

(** X7: the loader calls of a run come in one block per file, in the
    order of [pdf_files], and the block of a file is either the PyPDF call
    on that file alone or the PyPDF call followed by the PDFMiner call on
    it: every file gets at least one and at most two loader calls, whatever
    the loaders do, and so the run makes between [n] and [2n] calls for [n]
    files. *)
Theorem loader_calls_bounded (w : World Vec) :
  (∃ blocks,
     load_calls (main w).1.1 = concat blocks
     ∧ Forall2 (λ f block,
                  block = [(PyPDF, path_str f)]
                  ∨ block = [(PyPDF, path_str f); (PDFMiner, path_str f)])
         pdf_files blocks)
  ∧ length pdf_files ≤ length (load_calls (main w).1.1)
  ∧ length (load_calls (main w).1.1) ≤ 2 * length pdf_files.
Proof.
  rewrite main_load_calls. split.
  - exists (map (λ f, load_calls (extract_pages f).1) pdf_files).
    split; [done|].
    induction pdf_files as [|f files IH]; simpl; constructor; [|done].
    rewrite extract_pages_calls. destruct (decide _); auto.
  - induction pdf_files as [|f files IH]; simpl; [lia|].
    rewrite length_app, extract_pages_calls.
    destruct (decide _); simpl; lia.
Qed.

Lemma main_world (w : World Vec) :
  dirs (main w).1.2
    = dirs (after_mkdir w)
      ∪ match (main w).2 with
        | Return _ => library_dirs
        | SystemExit _ => ∅
        end
  ∧ chroma (main w).1.2 = chroma w ++ persisted_by_run w.
Proof.
  rewrite persisted_by_run_eq, main_eq.
  destruct pdf_files; [|destruct all_docs; [|destruct chunks]];
    simpl; by rewrite ?app_nil_r, ?(right_id_L ∅ (∪)).
Qed.

Lemma extend_all_no_store (files : list Path) :
  Forall (λ e, writes_store e = false) (extend_all files []).1.
Proof.
  apply Forall_forall. intros e (f & _ & He)%elem_of_extend_all_trace.
  pose proof (extract_pages_no_store f) as Hf.
  rewrite Forall_forall in Hf. by apply Hf.
Qed.

(** X8: the run only ever appends to the vector store and only adds
    directories: the records present before are kept, in place, in front
    of the records of the run.  A run that reaches its last line adds one
    record per chunk, in chunk order, with the chunk's text and metadata; a
    run that stops with [SystemExit] adds nothing and its trace has no
    embedding or persistence event at all. *)
Theorem store_is_append_only (w : World Vec) :
  chroma (main w).1.2 = chroma w ++ persisted_by_run w
  ∧ dirs w ⊆ dirs (main w).1.2
  ∧ match (main w).2 with
    | Return _ =>
        map rec_text (persisted_by_run w) = map page_content chunks
        ∧ map rec_metadata (persisted_by_run w) = map metadata chunks
    | SystemExit _ =>
        persisted_by_run w = []
        ∧ Forall (λ e, writes_store e = false) (main w).1.1
    end.
Proof.
  destruct (main_world w) as [Hdirs Hchroma].
  split; [done|]. split.
  { intros d Hd. rewrite Hdirs. simpl. rewrite !elem_of_union. auto. }
  rewrite persisted_by_run_eq.
  destruct (main_trace_shape w) as (tail & Htrace & _ & _ & _ & Htail).
  destruct (main w).2 as [[]|msg] eqn:Hres.
  - rewrite <-!list_fmap_compose. done.
  - split; [done|]. rewrite Htrace. repeat apply Forall_app_2.
    + by repeat constructor.
    + apply extend_all_no_store.
    + by apply Htail.
Qed.

Lemma extract_pages_total_len (f : Path) :
  total_len (extract_pages f).2 = 0 ↔ (extract_pages f).2 = [].
Proof.
  split; [|by intros ->]. rewrite extract_pages_result.
  by destruct (decide (total_len (final_pages f) = 0)).
Qed.

Lemma concat_pages_nil (files : list Path) :
  concat (map (λ f, (extract_pages f).2) files) = []
  ↔ Forall (λ f, total_len (final_pages f) = 0) files.
Proof.
  induction files as [|f files IH]; simpl.
  - split; [constructor | done].
  - rewrite Forall_cons, <-IH. rewrite extract_pages_result.
    destruct (decide (total_len (final_pages f) = 0)) as [Hz|Hnz]; simpl.
    + tauto.
    + split; [|tauto]. intros [Hnil _]%app_eq_nil.
      by apply total_len_pos_nonempty in Hnz.
Qed.

(** X9: [all_docs] is empty exactly when every file of [pdf_files] ends
    with a page list without any character, and it is empty exactly when
    it holds no character, so the check [if not all_docs] is a check on the
    extracted character count; and when it is empty, both extractors have
    been tried on every file, PyPDF then PDFMiner, file after file. *)
Theorem all_docs_empty_iff_no_characters (w : World Vec) :
  (all_docs = [] ↔ Forall (λ f, total_len (final_pages f) = 0) pdf_files)
  ∧ (total_len all_docs = 0 ↔ all_docs = [])
  ∧ (all_docs = [] →
     load_calls (main w).1.1 =
       concat (map (λ f, [(PyPDF, path_str f); (PDFMiner, path_str f)])
                 pdf_files)).
Proof.
  rewrite main_load_calls, all_docs_concat.
  split; [apply concat_pages_nil|]. split.
  - split; [|by intros ->].
    induction pdf_files as [|f files IH]; simpl; [done|].
    rewrite total_len_app. intros Hz.
    assert (Hf : (extract_pages f).2 = [])
      by (apply extract_pages_total_len; lia).
    rewrite Hf. simpl. apply IH. lia.
  - induction pdf_files as [|f files IH]; simpl; [done|].
    intros [Hf Hfiles]%app_eq_nil.
    rewrite IH by done. f_equal.
    rewrite extract_pages_calls.
    apply extract_pages_nil_stripped in Hf.
    by destruct (decide (total_stripped_len (primary_pages f) = 0)).
Qed.

(** X10: the script prints a warning only for a real failure: every
    [print] call of a run whose message starts with [[warn] ] is the
    warning of a loader that raised on a file of [pdf_files], and the
    message carries that loader's name, the file's name and the text of
    the exception.  (This is about the messages printed, not about the
    lines of the output: a file name or an exception text may hold a line
    feed.) *)
Theorem warnings_report_failures (w : World Vec) (e : Event) :
  e ∈ (main w).1.1 → is_warning e = true →
  ∃ f x err,
    f ∈ pdf_files
    ∧ loader x (path_str f) = Raised err
    ∧ e = EvPrint ("[warn] " +:+ extractor_name x +:+ " failed for "
                   +:+ path_name f +:+ ": " +:+ err).
Proof.
  destruct (main_trace_shape w) as (tail & -> & _ & _ & Htail & _).
  rewrite !elem_of_app. intros [He|[He|He]] Hw.
  - pose proof (prologue_no_warning REPO_ROOT) as Hpro.
    rewrite Forall_forall in Hpro. by rewrite (Hpro e He) in Hw.
  - apply elem_of_extend_all_trace in He as (f & Hf & He).
    destruct (extract_pages_warning f e He Hw) as (x & err & ? & ?).
    by exists f, x, err.
  - rewrite Forall_forall in Htail. by rewrite (Htail e He) in Hw.
Qed.

(** X11: the script's own statements create no directory but
    [PERSIST_DIR] and the directories above it: a directory exists after a
    run exactly when it existed before, or is [PERSIST_DIR] or above it, or
    was set up by the embedding and store libraries on a run that reached
    them.  So a run that stops with [SystemExit] leaves the directories it
    found plus [PERSIST_DIR] and its parents, and nothing at or below the
    input directory is created unless the libraries do it. *)
Theorem only_persist_dir_created (w : World Vec) (d : Path) :
  (d ∈ dirs (main w).1.2 ↔
     d ∈ dirs w ∨ d `prefix_of` PERSIST_DIR
     ∨ ((main w).2 = Return () ∧ d ∈ library_dirs))
  ∧ (PDF_DIR `prefix_of` d → d ∉ library_dirs →
     (d ∈ dirs (main w).1.2 ↔ d ∈ dirs w)).
Proof.
  destruct (main_world w) as [Hdirs _].
  assert (H : d ∈ dirs (main w).1.2 ↔
    d ∈ dirs w ∨ d `prefix_of` PERSIST_DIR
    ∨ ((main w).2 = Return () ∧ d ∈ library_dirs)).
  { rewrite Hdirs. simpl.
    rewrite !elem_of_union, elem_of_list_to_set, path_self_and_parents_prefix.
    destruct (main w).2 as [[]|msg].
    - intuition.
    - rewrite elem_of_empty. intuition discriminate. }
  split; [done|]. intros Hin Hlib. rewrite H. split; [|by left].
  intros [?|[Hpre|[_ ?]]]; [done| |done].
  by destruct (PDF_DIR_not_above_PERSIST_DIR REPO_ROOT d).
Qed.

End MorePipelineFacts.

(** ** More on the LangChain splitter: blank text *)

Lemma string_app_nil_r (s : string) : s +:+ "" = s.
Proof.
  induction s as [|c s IH]; [done|].
  change (String c (s +:+ "") = String c s). by f_equal.
Qed.

Lemma all_space_app (s1 s2 : string) :
  all_space (s1 +:+ s2) = all_space s1 && all_space s2.
Proof.
  induction s1 as [|c s1 IH]; [done|].
  change (isspace c && all_space (s1 +:+ s2)
          = isspace c && all_space s1 && all_space s2).
  by rewrite IH, andb_assoc.
Qed.

Lemma join_empty_cons (p : string) (ps : list string) :
  join "" (p :: ps) = p +:+ join "" ps.
Proof. destruct ps; simpl; by rewrite ?string_app_nil_r. Qed.

Lemma all_space_join (l : list string) :
  all_space (join "" l) = forallb all_space l.
Proof.
  induction l as [|p l IH]; [done|].
  rewrite join_empty_cons, all_space_app, IH. done.
Qed.

(** A chunk is dropped by [_join_docs] exactly when it is blank. *)
Lemma _join_docs_None (docs : list string) :
  LangChain._join_docs docs "" = None ↔ forallb all_space docs = true.
Proof.
  unfold LangChain._join_docs. rewrite <-all_space_join, <-strip_empty_iff.
  by destruct (decide (strip (join "" docs) = "")).
Qed.

Lemma split_keep_all_space (sep : string) (skip : nat) (cur text : string) :
  forallb all_space (LangChain.split_keep sep skip cur text)
    = all_space cur && all_space text.
Proof.
  revert skip cur. induction text as [|c text IH]; intros skip cur.
  - simpl. by rewrite andb_true_r.
  - assert (Hstep : ∀ k,
      forallb all_space (LangChain.split_keep sep k (cur +:+ String c "") text)
      = all_space cur && all_space (String c text)).
    { intros k. rewrite IH, all_space_app. simpl.
      by rewrite andb_true_r, andb_assoc. }
    destruct skip as [|k]; [|apply Hstep].
    change (forallb all_space
              (if String.prefix sep (String c text)
               then cur :: LangChain.split_keep sep (String.length sep - 1)
                             (String c "") text
               else LangChain.split_keep sep 0 (cur +:+ String c "") text)
            = all_space cur && all_space (String c text)).
    destruct (String.prefix sep (String c text)); [|apply Hstep].
    simpl. rewrite IH. simpl. by rewrite andb_true_r.
Qed.

Lemma chars_all_space (text : string) :
  forallb all_space (LangChain.chars text) = all_space text.
Proof.
  induction text as [|c text IH]; [done|].
  simpl. by rewrite IH, andb_true_r.
Qed.

Lemma filter_nonempty_all_space (l : list string) :
  forallb all_space (filter (λ s, s ≠ "") l) = forallb all_space l.
Proof.
  induction l as [|s l IH]; [done|].
  rewrite filter_cons. destruct (decide (s ≠ "")) as [|Hs]; simpl.
  - by rewrite IH.
  - apply dec_stable in Hs as ->. by rewrite IH.
Qed.

(** Cutting a text at a separator keeps its characters: the pieces are all
    blank exactly when the text is. *)
Lemma _split_text_with_regex_all_space (text separator : string) :
  forallb all_space (LangChain._split_text_with_regex text separator)
    = all_space text.
Proof.
  unfold LangChain._split_text_with_regex.
  rewrite filter_nonempty_all_space.
  destruct (decide (separator = "")); [apply chars_all_space|].
  by rewrite split_keep_all_space.
Qed.

Lemma chars_length (text : string) :
  Forall (λ s, String.length s = 1) (LangChain.chars text).
Proof. induction text; simpl; by constructor. Qed.

Lemma drop_front_suffix (chunk_size chunk_overlap separator_len len_d : nat)
    (current_doc : list string) (total : nat) :
  (LangChain.drop_front chunk_size chunk_overlap separator_len len_d
     current_doc total).1 `suffix_of` current_doc.
Proof.
  revert total. induction current_doc as [|x rest IH]; intros total; simpl.
  - done.
  - destruct (_ || _); [|done]. by apply suffix_cons_r.
Qed.

Lemma forallb_all_space_suffix (l1 l2 : list string) :
  l1 `suffix_of` l2 → forallb all_space l2 = true →
  forallb all_space l1 = true.
Proof.
  intros [k ->]. rewrite forallb_app. by intros [_ ?]%andb_true_iff.
Qed.

(** Blank pieces merge into no chunk at all. *)
Lemma merge_loop_blank (chunk_size chunk_overlap : nat)
    (splits docs current_doc : list string) (total : nat) :
  forallb all_space splits = true →
  forallb all_space current_doc = true →
  LangChain.merge_loop chunk_size chunk_overlap "" splits docs current_doc total
    = docs.
Proof.
  revert docs current_doc total.
  induction splits as [|d splits IH]; intros docs current_doc total Hs Hc.
  - simpl. apply _join_docs_None in Hc as ->. apply app_nil_r.
  - simpl in Hs. apply andb_true_iff in Hs as [Hd Hs].
    simpl. destruct current_doc as [|x rest].
    + apply IH; [done|]. simpl. by rewrite Hd.
    + destruct (chunk_size <? _).
      * pose proof (drop_front_suffix chunk_size chunk_overlap 0
          (String.length d) (x :: rest) total) as Hsuf.
        destruct (LangChain.drop_front _ _ _ _ (x :: rest) total)
          as [current_doc' total']. simpl in Hsuf.
        apply _join_docs_None in Hc as Hjoin. rewrite Hjoin.
        simpl option_list. rewrite app_nil_r. apply IH; [done|].
        rewrite forallb_app. simpl. rewrite Hd.
        by rewrite (forallb_all_space_suffix _ _ Hsuf Hc).
      * apply IH; [done|]. rewrite forallb_app. simpl.
        simpl in Hc. by rewrite Hc, Hd.
Qed.

(** A piece that is not blank is never lost by the merge. *)
Lemma merge_loop_ink (chunk_size chunk_overlap : nat)
    (splits docs current_doc : list string) (total : nat) :
  docs ≠ [] ∨ forallb all_space current_doc = false
  ∨ forallb all_space splits = false →
  LangChain.merge_loop chunk_size chunk_overlap "" splits docs current_doc total
    ≠ [].
Proof.
  assert (Hjoin : ∀ ds cur, ds ≠ [] ∨ forallb all_space cur = false →
    ds ++ option_list (LangChain._join_docs cur "") ≠ []).
  { intros ds cur [Hds|Hcur] Hnil; apply app_eq_nil in Hnil as [-> Hopt];
      [done|].
    destruct (LangChain._join_docs cur "") eqn:Hj; [done|].
    apply _join_docs_None in Hj. congruence. }
  assert (Hsnoc : ∀ cur d, forallb all_space cur = false
                           ∨ all_space d = false →
                           forallb all_space (cur ++ [d]) = false).
  { intros cur d [Hcur|Hd]; rewrite forallb_app; simpl.
    - by rewrite Hcur.
    - by rewrite Hd, andb_false_r. }
  revert docs current_doc total.
  induction splits as [|d splits IH]; intros docs current_doc total Hink.
  - simpl. apply Hjoin. destruct Hink as [H|[H|H]]; [by left|by right|done].
  - assert (Hd : docs ≠ [] ∨ forallb all_space current_doc = false
                 ∨ all_space d = false ∨ forallb all_space splits = false).
    { destruct Hink as [H|[H|H]]; [by left|by right; left|].
      simpl in H. apply andb_false_iff in H as [H|H]; auto. }
    clear Hink. simpl. destruct current_doc as [|x rest].
    + apply IH. destruct Hd as [H|[H|[H|H]]]; [by left|done| |by right; right].
      right; left. simpl. by rewrite H.
    + destruct (chunk_size <? _).
      * destruct (LangChain.drop_front _ _ _ _ (x :: rest) total)
          as [current_doc' total'].
        apply IH. destruct Hd as [H|[H|[H|H]]].
        -- left. apply Hjoin. by left.
        -- left. apply Hjoin. by right.
        -- right; left. apply Hsnoc. by right.
        -- by right; right.
      * apply IH. destruct Hd as [H|[H|[H|H]]].
        -- by left.
        -- right; left. apply Hsnoc. by left.
        -- right; left. apply Hsnoc. by right.
        -- by right; right.
Qed.

Lemma _merge_splits_blank (chunk_size chunk_overlap : nat) (good : list string) :
  forallb all_space good = true →
  match good with
  | [] => []
  | _ => LangChain._merge_splits chunk_size chunk_overlap good ""
  end = [].
Proof.
  intros Hgood. destruct good; [done|].
  unfold LangChain._merge_splits. by apply merge_loop_blank.
Qed.

Lemma _merge_splits_ink (chunk_size chunk_overlap : nat) (good : list string) :
  forallb all_space good = false →
  match good with
  | [] => []
  | _ => LangChain._merge_splits chunk_size chunk_overlap good ""
  end ≠ [].
Proof.
  intros Hgood. destruct good; [done|].
  unfold LangChain._merge_splits. apply merge_loop_ink. by right; right.
Qed.

Lemma collect_blank (chunk_size chunk_overlap : nat)
    (recur : string → list string) (splits good : list string) :
  forallb all_space splits = true →
  forallb all_space good = true →
  Forall (λ s, (String.length s <? chunk_size) = false → recur s = []) splits →
  LangChain.collect chunk_size chunk_overlap recur splits good = [].
Proof.
  revert good. induction splits as [|s splits IH]; intros good Hs Hg Hrec.
  - by apply _merge_splits_blank.
  - simpl in Hs. apply andb_true_iff in Hs as [Hs1 Hs].
    apply Forall_cons in Hrec as [Hrec1 Hrec].
    simpl. destruct (String.length s <? chunk_size) eqn:Hlen.
    + apply IH; [done| |done]. rewrite forallb_app. simpl.
      by rewrite Hg, Hs1.
    + rewrite (_merge_splits_blank _ _ good Hg), Hrec1 by done.
      simpl. by apply IH.
Qed.

Lemma collect_ink (chunk_size chunk_overlap : nat)
    (recur : string → list string) (splits good : list string) :
  forallb all_space good = false ∨ forallb all_space splits = false →
  (∀ s, all_space s = false → recur s ≠ []) →
  LangChain.collect chunk_size chunk_overlap recur splits good ≠ [].
Proof.
  intros Hink Hrec. revert good Hink.
  induction splits as [|s splits IH]; intros good Hink.
  - destruct Hink as [H|H]; [|done]. by apply _merge_splits_ink.
  - assert (Hcases : forallb all_space good = false ∨ all_space s = false
                     ∨ forallb all_space splits = false).
    { destruct Hink as [H|H]; [by left|]. simpl in H.
      apply andb_false_iff in H as [H|H]; auto. }
    clear Hink. simpl. destruct (String.length s <? chunk_size).
    + apply IH. destruct Hcases as [H|[H|H]]; [left|left|by right];
        rewrite forallb_app; simpl.
      * by rewrite H.
      * by rewrite H, andb_false_r.
    + intros Hnil. apply app_eq_nil in Hnil as [Hflush Hnil].
      apply app_eq_nil in Hnil as [Hs Hrest].
      destruct Hcases as [H|[H|H]].
      * by apply (_merge_splits_ink chunk_size chunk_overlap good).
      * by apply (Hrec s).
      * apply (IH []); [by right|done].
Qed.

(** With the empty separator last, blank text gives no chunk. *)
Lemma _split_text_blank (chunk_size chunk_overlap : nat)
    (separators : list string) (text : string) :
  1 < chunk_size → last separators = Some "" → all_space text = true →
  LangChain._split_text chunk_size chunk_overlap separators text = [].
Proof.
  intros Hcs. revert text.
  induction separators as [|s rest IH]; intros text Hlast Htext; [done|].
  simpl. destruct (decide (s = "")) as [->|Hs].
  - apply collect_blank; [|done|].
    + by rewrite _split_text_with_regex_all_space.
    + unfold LangChain._split_text_with_regex. simpl.
      apply Forall_forall. intros p [_ Hp]%list_elem_of_filter.
      pose proof (chars_length text) as Hlen. rewrite Forall_forall in Hlen.
      rewrite (Hlen p Hp). intros Hlt. apply Nat.ltb_ge in Hlt. lia.
  - destruct rest as [|r rest]; [by simplify_eq/=|].
    destruct (LangChain.contains s text).
    + apply collect_blank; [|done|].
      * by rewrite _split_text_with_regex_all_space.
      * pose proof (_split_text_with_regex_all_space text s) as Hall.
        rewrite Htext in Hall. rewrite forallb_forall in Hall.
        apply Forall_forall. intros p Hp%list_elem_of_In _.
        apply IH; [done|]. by apply Hall.
    + by apply IH.
Qed.

(** Text that is not blank gives at least one chunk. *)
Lemma _split_text_ink (chunk_size chunk_overlap : nat)
    (separators : list string) (text : string) :
  separators ≠ [] → all_space text = false →
  LangChain._split_text chunk_size chunk_overlap separators text ≠ [].
Proof.
  revert text.
  induction separators as [|s rest IH]; intros text Hne Htext; [done|].
  simpl. destruct (decide (s = "")) as [->|Hs].
  - apply collect_ink; [|done]. right.
    by rewrite _split_text_with_regex_all_space.
  - destruct rest as [|r rest].
    + apply collect_ink; [|done]. right.
      by rewrite _split_text_with_regex_all_space.
    + destruct (LangChain.contains s text).
      * apply collect_ink.
        -- right. by rewrite _split_text_with_regex_all_space.
        -- intros p Hp. by apply IH.
      * by apply IH.
Qed.

Lemma split_text_nil_iff (chunk_size chunk_overlap : nat) (text : string) :
  1 < chunk_size →
  LangChain.split_text chunk_size chunk_overlap text = []
  ↔ all_space text = true.
Proof.
  intros Hcs. unfold LangChain.split_text. split.
  - intros Hnil. destruct (all_space text) eqn:Htext; [done|].
    by destruct (_split_text_ink chunk_size chunk_overlap
                   LangChain.separators text).
  - by apply _split_text_blank.
Qed.

Lemma split_documents_nil_iff (chunk_size chunk_overlap : nat)
    (docs : list Document) :
  1 < chunk_size →
  LangChain.split_documents chunk_size chunk_overlap docs = []
  ↔ total_stripped_len docs = 0.
Proof.
  intros Hcs. unfold LangChain.split_documents, total_stripped_len.
  induction docs as [|d docs IH]; [done|].
  simpl. split.
  - intros [Hd Hdocs]%app_eq_nil. unfold LangChain.chunks_of in Hd.
    apply fmap_nil_inv, split_text_nil_iff, strip_empty_iff in Hd; [|done].
    rewrite Hd. simpl. by apply IH.
  - intros Hz.
    assert (Hd : strip (page_content d) = "").
    { destruct (strip (page_content d)); [done|]. simpl in Hz. lia. }
    rewrite Hd in Hz. simpl in Hz. rewrite (proj2 IH Hz), app_nil_r.
    unfold LangChain.chunks_of.
    apply strip_empty_iff, (split_text_nil_iff chunk_size chunk_overlap) in Hd;
      [|done].
    by rewrite Hd.
Qed.

(** X13: with LangChain's splitter the list of chunks is empty exactly
    when no extracted page holds a character other than whitespace; so the
    run stops with "Text was extracted but chunking produced 0 chunks"
    exactly when pages were extracted and all of them are blank. *)
Theorem zero_chunks_iff_blank_text {Vec : Type} (scandir : Path → list string)
    (PyPDFLoader_load PDFMinerLoader_load : string → LoadResult)
    (embed : string → Vec) (library_dirs : gset Path) (REPO_ROOT : Path)
    (w : World Vec) :
  (chunks scandir PyPDFLoader_load PDFMinerLoader_load
     LangChain.split_documents REPO_ROOT = []
   ↔ total_stripped_len
       (all_docs scandir PyPDFLoader_load PDFMinerLoader_load REPO_ROOT) = 0)
  ∧ ((main scandir PyPDFLoader_load PDFMinerLoader_load
        LangChain.split_documents embed library_dirs REPO_ROOT w).2
     = SystemExit
         "Text was extracted but chunking produced 0 chunks; adjust splitter settings."
     ↔ all_docs scandir PyPDFLoader_load PDFMinerLoader_load REPO_ROOT ≠ []
       ∧ total_stripped_len
           (all_docs scandir PyPDFLoader_load PDFMinerLoader_load REPO_ROOT)
         = 0).
Proof.
  assert (Hchunks : chunks scandir PyPDFLoader_load PDFMinerLoader_load
      LangChain.split_documents REPO_ROOT = []
    ↔ total_stripped_len
        (all_docs scandir PyPDFLoader_load PDFMinerLoader_load REPO_ROOT) = 0).
  { rewrite chunks_eq. apply split_documents_nil_iff. unfold chunk_size. lia. }
  split; [done|]. rewrite <-Hchunks, main_result.
  pose proof (all_docs_concat scandir PyPDFLoader_load PDFMinerLoader_load
                REPO_ROOT) as Hdocs.
  destruct (pdf_files scandir REPO_ROOT) as [|f files].
  - simpl in Hdocs. rewrite Hdocs. split; [done|]. by intros [? _].
  - destruct (all_docs _ _ _ _) as [|d docs]; [split; [done|by intros [? _]]|].
    destruct (chunks _ _ _ _ _); split; try done. by intros [_ ?].
Qed.

(** ** More on the LangChain splitter: the size of a chunk *)

Lemma length_join_empty (l : list string) :
  String.length (join "" l) = sum_list (map String.length l).
Proof.
  induction l as [|p l IH]; [done|].
  rewrite join_empty_cons, string_length_app, IH. done.
Qed.

Lemma sum_list_length_snoc (l : list string) (d : string) :
  sum_list (map String.length (l ++ [d]))
    = sum_list (map String.length l) + String.length d.
Proof. induction l as [|p l IH]; simpl; lia. Qed.

(** A chunk that [_join_docs] keeps is not empty and no longer than the
    pieces it was joined from. *)
Lemma _join_docs_Some (docs : list string) (text : string) :
  LangChain._join_docs docs "" = Some text →
  text ≠ "" ∧ String.length text ≤ sum_list (map String.length docs).
Proof.
  unfold LangChain._join_docs.
  destruct (decide (strip (join "" docs) = "")) as [|Hne]; [done|].
  intros [= <-]. split; [done|].
  rewrite <-length_join_empty. apply length_strip_le.
Qed.

(** The [while] loop keeps [total] equal to the length of what is left, and
    stops only when the next piece fits or nothing is left. *)
Lemma drop_front_spec (chunk_size chunk_overlap len_d : nat)
    (current_doc : list string) (total : nat) :
  total = sum_list (map String.length current_doc) →
  let r := LangChain.drop_front chunk_size chunk_overlap 0 len_d
             current_doc total in
  r.2 = sum_list (map String.length r.1)
  ∧ (r.2 + len_d ≤ chunk_size ∨ r.2 = 0).
Proof.
  revert total. induction current_doc as [|x rest IH]; intros total Htotal.
  - simpl in *. auto.
  - simpl LangChain.drop_front.
    destruct (_ || _) eqn:Hcond.
    + apply IH. destruct rest; simpl in *; lia.
    + simpl. split; [done|].
      apply orb_false_iff in Hcond as [_ Hcond].
      apply andb_false_iff in Hcond as [Hcond|Hcond].
      * apply Nat.ltb_ge in Hcond. lia.
      * apply Nat.ltb_ge in Hcond. lia.
Qed.

Lemma merge_loop_bounded (chunk_size chunk_overlap : nat)
    (splits docs current_doc : list string) (total : nat) :
  Forall (λ c, c ≠ "" ∧ String.length c ≤ chunk_size) docs →
  total = sum_list (map String.length current_doc) →
  total ≤ chunk_size →
  Forall (λ s, String.length s < chunk_size) splits →
  Forall (λ c, c ≠ "" ∧ String.length c ≤ chunk_size)
    (LangChain.merge_loop chunk_size chunk_overlap "" splits docs
       current_doc total).
Proof.
  assert (Hemit : ∀ ds cur,
    Forall (λ c, c ≠ "" ∧ String.length c ≤ chunk_size) ds →
    sum_list (map String.length cur) ≤ chunk_size →
    Forall (λ c, c ≠ "" ∧ String.length c ≤ chunk_size)
      (ds ++ option_list (LangChain._join_docs cur ""))).
  { intros ds cur Hds Hcur. apply Forall_app_2; [done|].
    destruct (LangChain._join_docs cur "") as [text|] eqn:Hj; simpl;
      [|constructor].
    apply _join_docs_Some in Hj as [? ?]. repeat constructor; [done|lia]. }
  revert docs current_doc total.
  induction splits as [|d splits IH];
    intros docs current_doc total Hdocs Htotal Hle Hsplits.
  - simpl. apply Hemit; [done|lia].
  - apply Forall_cons in Hsplits as [Hd Hsplits].
    simpl. destruct current_doc as [|x rest].
    + apply IH; try done; simpl in *; lia.
    + destruct (chunk_size <? _) eqn:Hover.
      * pose proof (drop_front_spec chunk_size chunk_overlap (String.length d)
          (x :: rest) total Htotal) as [Hsum Hfit].
        destruct (LangChain.drop_front _ _ _ _ (x :: rest) total)
          as [current_doc' total']. simpl in Hsum, Hfit.
        assert (Hnew : total' + String.length d
                       + match current_doc' with [] => 0 | _ :: _ => 0 end
                       = total' + String.length d)
          by (destruct current_doc'; lia).
        rewrite Hnew. apply IH; try done.
        -- apply Hemit; [done|lia].
        -- rewrite sum_list_length_snoc. lia.
        -- lia.
      * apply Nat.ltb_ge in Hover.
        apply IH; try done.
        rewrite sum_list_length_snoc. lia.
Qed.

Lemma collect_bounded (chunk_size chunk_overlap : nat)
    (recur : string → list string) (splits good : list string) :
  Forall (λ s, String.length s < chunk_size) good →
  Forall (λ s, (String.length s <? chunk_size) = false →
               Forall (λ c, c ≠ "" ∧ String.length c ≤ chunk_size) (recur s))
    splits →
  Forall (λ c, c ≠ "" ∧ String.length c ≤ chunk_size)
    (LangChain.collect chunk_size chunk_overlap recur splits good).
Proof.
  assert (Hflush : ∀ gs, Forall (λ s, String.length s < chunk_size) gs →
    Forall (λ c, c ≠ "" ∧ String.length c ≤ chunk_size)
      match gs with
      | [] => []
      | _ => LangChain._merge_splits chunk_size chunk_overlap gs ""
      end).
  { intros [|g gs] Hgood; [constructor|].
    unfold LangChain._merge_splits.
    apply merge_loop_bounded; try done; simpl; lia. }
  revert good. induction splits as [|s splits IH]; intros good Hgood Hrec.
  - by apply Hflush.
  - apply Forall_cons in Hrec as [Hrec1 Hrec].
    simpl. destruct (String.length s <? chunk_size) eqn:Hlen.
    + apply IH; [|done]. apply Forall_app_2; [done|].
      apply Nat.ltb_lt in Hlen. by repeat constructor.
    + repeat apply Forall_app_2; [by apply Hflush|by apply Hrec1|].
      apply IH; [constructor|done].
Qed.

Lemma _split_text_bounded (chunk_size chunk_overlap : nat)
    (separators : list string) (text : string) :
  1 < chunk_size → last separators = Some "" →
  Forall (λ c, c ≠ "" ∧ String.length c ≤ chunk_size)
    (LangChain._split_text chunk_size chunk_overlap separators text).
Proof.
  intros Hcs. revert text.
  induction separators as [|s rest IH]; intros text Hlast; [constructor|].
  simpl. destruct (decide (s = "")) as [->|Hs].
  - apply collect_bounded; [constructor|].
    unfold LangChain._split_text_with_regex. simpl.
    apply Forall_forall. intros p [_ Hp]%list_elem_of_filter.
    pose proof (chars_length text) as Hlen. rewrite Forall_forall in Hlen.
    rewrite (Hlen p Hp). intros Hlt. apply Nat.ltb_ge in Hlt. lia.
  - destruct rest as [|r rest]; [by simplify_eq/=|].
    destruct (LangChain.contains s text); [|by apply IH].
    apply collect_bounded; [constructor|].
    apply Forall_forall. intros p _ _. by apply IH.
Qed.

Lemma split_documents_bounded (chunk_size chunk_overlap : nat)
    (docs : list Document) :
  1 < chunk_size →
  Forall (λ c, page_content c ≠ ""
               ∧ String.length (page_content c) ≤ chunk_size)
    (LangChain.split_documents chunk_size chunk_overlap docs).
Proof.
  intros Hcs. unfold LangChain.split_documents.
  induction docs as [|d docs IH]; [constructor|].
  simpl. apply Forall_app_2; [|done].
  unfold LangChain.chunks_of. apply Forall_fmap.
  by apply _split_text_bounded.
Qed.

(** X14: with LangChain's splitter every chunk of a run, and so the text
    of every record the run persists, has at least one and at most 1000
    characters. *)
Theorem chunks_within_chunk_size {Vec : Type} (scandir : Path → list string)
    (PyPDFLoader_load PDFMinerLoader_load : string → LoadResult)
    (embed : string → Vec) (library_dirs : gset Path) (REPO_ROOT : Path)
    (w : World Vec) :
  Forall (λ c, 1 ≤ String.length (page_content c)
               ∧ String.length (page_content c) ≤ 1000)
    (chunks scandir PyPDFLoader_load PDFMinerLoader_load
       LangChain.split_documents REPO_ROOT)
  ∧ Forall (λ r, 1 ≤ String.length (rec_text r)
                 ∧ String.length (rec_text r) ≤ 1000)
      (persisted_by_run scandir PyPDFLoader_load PDFMinerLoader_load
         LangChain.split_documents embed library_dirs REPO_ROOT w).
Proof.
  assert (Hchunks : Forall (λ c, 1 ≤ String.length (page_content c)
                                 ∧ String.length (page_content c) ≤ 1000)
    (chunks scandir PyPDFLoader_load PDFMinerLoader_load
       LangChain.split_documents REPO_ROOT)).
  { rewrite chunks_eq.
    eapply Forall_impl; [apply split_documents_bounded; unfold chunk_size; lia|].
    intros c [Hne Hle]. split; [|done].
    destruct (page_content c); [done|simpl; lia]. }
  split; [done|]. rewrite persisted_by_run_eq.
  destruct (main _ _ _ _ _ _ _ w).2; [|constructor].
  by apply Forall_fmap.
Qed.

(** ** The further properties on concrete inputs *)

(** PyPDF reads text from [c.pdf]: the fallback loader is irrelevant. *)
Lemma extract_pages_ignores_fallback_witness :
  total_stripped_len (primary_pages Examples.pypdf Examples.c_pdf) ≠ 0
  ∧ extract_pages Examples.pypdf Examples.pdfminer Examples.c_pdf
    = extract_pages Examples.pypdf MoreExamples.pdfminer_text Examples.c_pdf.
Proof.
  split; [by vm_compute|].
  apply (extract_pages_ignores_fallback Examples.pypdf Examples.pdfminer
           MoreExamples.pdfminer_text Examples.c_pdf).
  by vm_compute.
Defined.

(** PyPDF reads one space from [b.pdf] and PDFMiner loads an empty text:
    the file is skipped although PyPDF extracted a character. *)
Lemma fallback_outcome_decides_witness :
  total_stripped_len (primary_pages Examples.pypdf Examples.b_pdf) = 0
  ∧ total_len (primary_pages Examples.pypdf Examples.b_pdf) = 1
  ∧ (extract_pages Examples.pypdf MoreExamples.pdfminer_blank
       Examples.b_pdf).2 = [].
Proof.
  split; [reflexivity|]. split; [reflexivity|].
  rewrite (fallback_outcome_decides Examples.pypdf MoreExamples.pdfminer_blank
             Examples.b_pdf); reflexivity.
Defined.

(** [a.pdf] is skipped, after PyPDF and PDFMiner were both tried. *)
Lemma skipped_after_both_extractors_witness :
  (extract_pages Examples.pypdf Examples.pdfminer Examples.a_pdf).2 = []
  ∧ load_calls (extract_pages Examples.pypdf Examples.pdfminer
                  Examples.a_pdf).1
    = [(PyPDF, path_str Examples.a_pdf); (PDFMiner, path_str Examples.a_pdf)].
Proof.
  split; [reflexivity|].
  apply (skipped_after_both_extractors Examples.pypdf Examples.pdfminer
           Examples.a_pdf).
  reflexivity.
Defined.

(** The directory with three PDFs lists every entry once. *)
Lemma each_pdf_attempted_once_witness :
  NoDup (Examples.scandir_three (PDF_DIR Examples.root))
  ∧ calls_of PDFMiner
      (main Examples.scandir_three Examples.pypdf Examples.pdfminer
         LangChain.split_documents Examples.embed Examples.library_dirs Examples.root
         Examples.fresh).1.1
    = map path_str
        (filter (λ f, total_stripped_len (primary_pages Examples.pypdf f) = 0)
           (pdf_files Examples.scandir_three Examples.root)).
Proof.
  assert (Hnodup : NoDup (Examples.scandir_three (PDF_DIR Examples.root))).
  { unfold Examples.scandir_three.
    refine (bool_decide_unpack (NoDup _) _). by vm_compute. }
  split; [exact Hnodup|].
  by apply (each_pdf_attempted_once Examples.scandir_three Examples.pypdf
              Examples.pdfminer LangChain.split_documents Examples.embed Examples.library_dirs
              Examples.root Examples.fresh).
Defined.

(** The directory holding only [a.pdf] yields no page: both extractors
    were tried on it. *)
Lemma all_docs_empty_iff_no_characters_witness :
  all_docs Examples.scandir_one Examples.pypdf Examples.pdfminer
    Examples.root = []
  ∧ load_calls
      (main Examples.scandir_one Examples.pypdf Examples.pdfminer
         LangChain.split_documents Examples.embed Examples.library_dirs Examples.root
         Examples.fresh).1.1
    = concat (map (λ f, [(PyPDF, path_str f); (PDFMiner, path_str f)])
                (pdf_files Examples.scandir_one Examples.root)).
Proof.
  split; [reflexivity|].
  apply (all_docs_empty_iff_no_characters Examples.scandir_one Examples.pypdf
           Examples.pdfminer LangChain.split_documents Examples.embed Examples.library_dirs
           Examples.root Examples.fresh).
  reflexivity.
Defined.

(** The warning of the run on the three PDFs that names [a.pdf] reports a
    loader that did raise. *)
Lemma warnings_report_failures_witness :
  EvPrint "[warn] PyPDF failed for a.pdf: EOF marker not found"
    ∈ (main Examples.scandir_three Examples.pypdf Examples.pdfminer
         LangChain.split_documents Examples.embed Examples.library_dirs Examples.root
         Examples.fresh).1.1
  ∧ is_warning (EvPrint "[warn] PyPDF failed for a.pdf: EOF marker not found")
    = true
  ∧ ∃ f x err,
      f ∈ pdf_files Examples.scandir_three Examples.root
      ∧ match x with PyPDF => Examples.pypdf | PDFMiner => Examples.pdfminer end
          (path_str f) = Raised err
      ∧ EvPrint "[warn] PyPDF failed for a.pdf: EOF marker not found"
        = EvPrint ("[warn] " +:+ extractor_name x +:+ " failed for "
                   +:+ path_name f +:+ ": " +:+ err).
Proof.
  assert (Hin : EvPrint "[warn] PyPDF failed for a.pdf: EOF marker not found"
    ∈ (main Examples.scandir_three Examples.pypdf Examples.pdfminer
         LangChain.split_documents Examples.embed Examples.library_dirs Examples.root
         Examples.fresh).1.1).
  { apply list_elem_of_lookup. exists 4. by vm_compute. }
  split; [exact Hin|]. split; [reflexivity|].
  apply (warnings_report_failures Examples.scandir_three Examples.pypdf
           Examples.pdfminer LangChain.split_documents Examples.embed Examples.library_dirs
           Examples.root Examples.fresh _ Hin).
  reflexivity.
Defined.

(** A run on a fresh disk, with libraries that set up two folders of their
    own, does not create the input directory. *)
Lemma only_persist_dir_created_witness :
  PDF_DIR Examples.root `prefix_of` PDF_DIR Examples.root
  ∧ (PDF_DIR Examples.root ∉ Examples.library_dirs)
  ∧ (PDF_DIR Examples.root
       ∈ dirs (main Examples.scandir_three Examples.pypdf Examples.pdfminer
                 LangChain.split_documents Examples.embed
                 Examples.library_dirs Examples.root Examples.fresh).1.2
     ↔ PDF_DIR Examples.root ∈ dirs Examples.fresh).
Proof.
  assert (Hlib : PDF_DIR Examples.root ∉ Examples.library_dirs).
  { unfold Examples.library_dirs. rewrite elem_of_union, !elem_of_singleton.
    intros [H|H]; vm_compute in H; discriminate. }
  split; [reflexivity|]. split; [exact Hlib|].
  apply (only_persist_dir_created Examples.scandir_three Examples.pypdf
           Examples.pdfminer LangChain.split_documents Examples.embed
           Examples.library_dirs Examples.root Examples.fresh
           (PDF_DIR Examples.root)); [reflexivity | exact Hlib].
Defined.

(** The directory whose only PDF has blank pages: text is extracted, and
    the run stops at the chunk check. *)
Example blank_only_run :
  (main MoreExamples.scandir_blank_only Examples.pypdf Examples.pdfminer
     LangChain.split_documents Examples.embed Examples.library_dirs Examples.root Examples.fresh).2
  = SystemExit
      "Text was extracted but chunking produced 0 chunks; adjust splitter settings."
  ∧ pdf_files MoreExamples.scandir_blank_only Examples.root = [Examples.b_pdf].
Proof. split; by vm_compute. Qed.
